(** * TikZ renderer: the compile-and-diagnose pipeline of [tikz_mcp_server.py]

    A shallow embedding of [TikZMCPServer.compile_tikz_to_image] and of the
    [handle_call_tool] request handler, with the properties of the document
    normalizer, the log diagnostic extractor and the pipeline's failure
    policy.

    Text is [string]: a sequence of 8-bit code points, on which [str.strip],
    [str.lower], [str.split], [str.join], [str.startswith] and the [in]
    operator are written out as Python defines them on that range. *)

From Stdlib Require Import ZArith Ascii String List Lia Bool PrimFloat.
From stdpp Require Import gmap strings list.

(** ** Python's [str] operations *)

Module PyStr.

(** The line feed, Python's ['\n']. *)
Definition nl : ascii := "010"%char.

(** [str.isspace] on one code point below 256: TAB, LF, VT, FF, CR, the
    four separators FS GS RS US, the space, NEL and the no-break space. *)
Definition isspace (c : ascii) : bool :=
  let n := nat_of_ascii c in
  ((9 <=? n) && (n <=? 13)) || ((28 <=? n) && (n <=? 32))
  || (n =? 133) || (n =? 160).

(** [str.lower] on one code point below 256: [A-Z] and the accented
    capitals U+00C0..U+00DE (the multiplication sign U+00D7 apart). *)
Definition lower_char (c : ascii) : ascii :=
  let n := nat_of_ascii c in
  if ((65 <=? n) && (n <=? 90))
     || ((192 <=? n) && (n <=? 222) && negb (n =? 215))
  then ascii_of_nat (n + 32) else c.

Fixpoint lower (s : string) : string :=
  match s with
  | EmptyString => EmptyString
  | String c s' => String (lower_char c) (lower s')
  end.

Fixpoint lstrip (s : string) : string :=
  match s with
  | EmptyString => EmptyString
  | String c s' => if isspace c then lstrip s' else s
  end.

Fixpoint rstrip (s : string) : string :=
  match s with
  | EmptyString => EmptyString
  | String c s' =>
      match rstrip s' with
      | EmptyString => if isspace c then EmptyString else String c EmptyString
      | r => String c r
      end
  end.

(** [s.strip()] *)
Definition strip (s : string) : string := rstrip (lstrip s).

(** [s.startswith(p)] *)
Fixpoint startswith (p s : string) : bool :=
  match p, s with
  | EmptyString, _ => true
  | String a p', String b s' => Ascii.eqb a b && startswith p' s'
  | String _ _, EmptyString => false
  end.

(** [needle in hay] *)
Fixpoint contains (needle hay : string) : bool :=
  startswith needle hay
  || match hay with
     | EmptyString => false
     | String _ hay' => contains needle hay'
     end.

(** [s.split(sep)] for a one-character separator: never the empty list. *)
Fixpoint split (sep : ascii) (s : string) : list string :=
  match s with
  | EmptyString => [EmptyString]
  | String c s' =>
      if Ascii.eqb c sep then EmptyString :: split sep s'
      else match split sep s' with
           | [] => [String c EmptyString]
           | h :: t => String c h :: t
           end
  end.

(** [sep.join(parts)] *)
Fixpoint join (sep : string) (parts : list string) : string :=
  match parts with
  | [] => EmptyString
  | [x] => x
  | x :: rest => x +:+ sep +:+ join sep rest
  end.

(** Truthiness of a string: [bool(s)]. *)
Definition truthy (s : string) : bool :=
  match s with EmptyString => false | String _ _ => true end.

(** [a or b] on strings. *)
Definition or_else (a b : string) : string := if truthy a then a else b.

(** Number of occurrences of one character. *)
Fixpoint count_char (c : ascii) (s : string) : nat :=
  match s with
  | EmptyString => 0
  | String a s' => (if Ascii.eqb a c then 1 else 0) + count_char c s'
  end.

(** Number of lines of a text: the length of [text.split('\n')]. *)
Definition line_count (s : string) : nat := length (split nl s).

End PyStr.

Import PyStr.

(** ** Document normalizer (source lines 41-56) *)

(** The full-document declaration marker. *)
Definition marker : string := "\documentclass".

(** The text of the f-string before the interpolated [{tikz_code}]. *)
Definition template_head : string :=
"\documentclass[border=2pt]{standalone}
\usepackage{tikz}
\usepackage{pgfplots}
\usepackage{amsmath}
\usepackage{amssymb}
\usepackage{xcolor}
\usetikzlibrary{shapes,arrows,positioning,calc,decorations.pathreplacing,patterns,fit,backgrounds,mindmap,trees,arrows.meta,angles,quotes}
\pgfplotsset{compat=1.18}

\begin{document}
".

(** The text of the f-string after the interpolated [{tikz_code}]. *)
Definition template_tail : string :=
"
\end{document}
".

(** [latex_content] as computed from [tikz_code]. *)
Definition normalize (tikz_code : string) : string :=
  if contains marker tikz_code then tikz_code
  else template_head +:+ tikz_code +:+ template_tail.

(** ** Log diagnostic extractor (source lines 72-117) *)

(** The three variables the scan loop updates. *)
Record ScanState := mkScan {
  error_section : bool;
  error_lines : list string;
  context_lines : list string
}.

Definition scan_init : ScanState :=
  {| error_section := false; error_lines := []; context_lines := [] |}.

(** What one iteration of the [for] loop does to the loop itself. *)
Inductive Flow :=
| Continue (st : ScanState)
| Break (st : ScanState).

Definition keywords : list string := ["! "; "error:"; "undefined"; "missing"].

(** [any(keyword in line.lower() for keyword in [...])] *)
Definition is_trigger (line : string) : bool :=
  existsb (fun keyword => contains keyword (lower line)) keywords.

(** One pass of the inner loop, for index [j]. *)
Definition backfill_one (lines : list string) (ctx : list string) (j : nat)
  : list string :=
  let c := strip (nth j lines "") in
  if truthy c && negb (bool_decide (c ∈ ctx)) then ctx ++ [c] else ctx.

(** [for j in range(max(0, i-2), i): ...]; on [nat], [i - 2] is already
    [max 0 (i - 2)]. *)
Definition backfill (lines : list string) (i : nat) (ctx : list string)
  : list string :=
  let lo := Nat.max 0 (i - 2) in
  fold_left (backfill_one lines) (seq lo (i - lo)) ctx.

(** The [if]/[elif] chain on a non-empty line inside the error section. *)
Definition collect_related (line line_clean : string) (errs : list string)
  : list string :=
  if startswith "l." line || contains "line" (lower line)
  then errs ++ [line_clean]
  else if existsb (fun char => contains char line) ["^"; "?"]
  then errs ++ [line_clean]
  else if startswith "\" line_clean || contains "\" line_clean
  then errs ++ [line_clean]
  else if length errs <? 10
  then errs ++ [line_clean]
  else errs.

(** The body of [for i, line in enumerate(lines)]. *)
Definition scan_line (lines : list string) (i : nat) (line : string)
  (st : ScanState) : Flow :=
  let line_clean := strip line in
  if is_trigger line then
    Continue {| error_section := true;
                error_lines := error_lines st ++ [line_clean];
                context_lines := backfill lines i (context_lines st) |}
  else if error_section st then
    if truthy line_clean then
      Continue {| error_section := error_section st;
                  error_lines := collect_related line line_clean (error_lines st);
                  context_lines := context_lines st |}
    else if 0 <? length (error_lines st) then Break st
    else Continue st
  else Continue st.

(** The loop from index [i] on, [todo] being [lines[i:]]. *)
Fixpoint scan_loop (lines : list string) (i : nat) (todo : list string)
  (st : ScanState) : ScanState :=
  match todo with
  | [] => st
  | line :: rest =>
      match scan_line lines i line st with
      | Break st' => st'
      | Continue st' => scan_loop lines (S i) rest st'
      end
  end.

Definition scan (lines : list string) : ScanState :=
  scan_loop lines 0 lines scan_init.

Definition separator : string := "--- Error Details ---".

(** [l[-n:]] for a positive [n]. *)
Definition last_n {A} (n : nat) (l : list A) : list A :=
  drop (length l - n) l.

(** Truthiness of a list: [bool(l)]. *)
Definition list_truthy {A} (l : list A) : bool :=
  match l with [] => false | _ :: _ => true end.

(** The list whose join is [error_details] (source lines 108-114). *)
Definition report_lines (lines : list string) : list string :=
  let st := scan lines in
  if list_truthy (context_lines st) || list_truthy (error_lines st) then
    take 20 (context_lines st ++ [separator] ++ error_lines st)
  else
    last_n 15 (List.filter (fun line => truthy (strip line)) (last_n 50 lines)).

(** The report as text. *)
Definition diagnostic_report (log_content : string) : string :=
  join (String nl "") (report_lines (split nl log_content)).

(** [error_details] when the log file exists (source lines 71-117). *)
Definition error_details_of_log (log_content stderr : string) : string :=
  let error_details := diagnostic_report log_content in
  if negb (truthy error_details)
  then or_else stderr "LaTeX compilation failed with unknown error"
  else error_details.

(** ** The pipeline (source lines 27-144) *)

(** The pipeline's actions on the outside world, in order.  An action that
    raises is listed all the same. *)
Inductive Event :=
| ProbeTool (tool : string)
| CreateWorkspace
| WriteSource (latex_content : string)
| RunCompiler
| ReadLog
| RunConverter
| ReadImage
| RemoveWorkspace.

#[global] Instance Event_eq_dec : EqDecision Event.
Proof. solve_decision. Defined.

(** What the compiler left behind. *)
Record CompileRun := mkCompileRun {
  returncode : Z;              (* exit status of pdflatex *)
  stderr : string;             (* [e.stderr], the captured standard error
                                  as text, when it decodes *)
  log_file : option string;    (* content of diagram.log, if the file exists *)
  pdf_file_exists : bool       (* whether diagram.pdf exists afterwards *)
}.

Record ConvertRun := mkConvertRun {
  convert_returncode : Z;      (* exit status of convert *)
  convert_exception : string;  (* [str(e)] of the CalledProcessError *)
  png_file : option string     (* bytes of diagram.png, if the file exists *)
}.

(** What the outside world does when the pipeline calls it.  [fault e] is
    [Some text] when action [e] raises an exception that
    [compile_tikz_to_image] does not catch, [text] being its [str(e)]: a
    [PermissionError] of a probe, the [UnicodeDecodeError] that
    [subprocess.run(..., text=True)] raises on captured output that does not
    decode (raised before the exit status is looked at), an [OSError] of a
    file operation.  The other fields say what happens when it does not. *)
Record World := mkWorld {
  pdflatex_found : bool;       (* [pdflatex --version] ran and exited with 0;
                                  [false]: CalledProcessError or
                                  FileNotFoundError *)
  convert_found : bool;        (* the same for [convert --version] *)
  pdflatex : string -> CompileRun;  (* by the document written to diagram.tex *)
  convert : string -> ConvertRun;   (* by the same document *)
  b64encode : string -> string;     (* [base64.b64encode(..).decode('utf-8')] *)
  fault : Event -> option string
}.

(** The exceptions that leave [compile_tikz_to_image]: the [RuntimeError]s
    it raises itself, and whatever else an action raised. *)
Inductive Exn :=
| RuntimeError (msg : string)
| OtherError (text : string).

(** [str(e)] *)
Definition exn_text (e : Exn) : string :=
  match e with RuntimeError msg => msg | OtherError text => text end.

(** A call either returns or raises. *)
Inductive Result (A : Type) :=
| Returned (a : A)
| Raised (e : Exn).
Arguments Returned {A} a.
Arguments Raised {A} e.

(** Computations that log their actions and may raise. *)
Definition Run (A : Type) : Type := list Event -> Result A * list Event.

Definition ret {A} (a : A) : Run A := fun tr => (Returned a, tr).
Definition raise {A} (e : Exn) : Run A := fun tr => (Raised e, tr).
Definition bind {A B} (m : Run A) (k : A -> Run B) : Run B :=
  fun tr => match m tr with
            | (Returned a, tr1) => k a tr1
            | (Raised e, tr1) => (Raised e, tr1)
            end.

(** One action on the outside world. *)
Definition act (w : World) (e : Event) : Run unit :=
  fun tr => match fault w e with
            | Some text => (Raised (OtherError text), tr ++ [e])
            | None => (Returned tt, tr ++ [e])
            end.

Notation "x <- m ;; k" := (bind m (fun x => k))
  (at level 100, m at next level, right associativity).
Notation "m ;;; k" := (bind m (fun _ => k))
  (at level 100, right associativity).

(** [with tempfile.TemporaryDirectory() as temp_dir: body]: once created,
    the directory is removed on every exit of the block; an exception of
    the removal replaces the block's outcome. *)
Definition with_temporary_directory {A} (w : World) (body : Run A) : Run A :=
  fun tr =>
    match act w CreateWorkspace tr with
    | (Raised e, tr1) => (Raised e, tr1)
    | (Returned _, tr1) =>
        let (r, tr2) := body tr1 in
        match act w RemoveWorkspace tr2 with
        | (Raised e, tr3) => (Raised e, tr3)
        | (Returned _, tr3) => (r, tr3)
        end
    end.

(** The two blocks at source lines 28-36: [CalledProcessError] and
    [FileNotFoundError] become a [RuntimeError], anything else passes. *)
Definition probe (w : World) (found : bool) (tool msg : string) : Run unit :=
  act w (ProbeTool tool) ;;;
  if found then ret tt else raise (RuntimeError msg).

(** The [except subprocess.CalledProcessError as e] block, lines 67-121. *)
Definition on_compile_error (w : World) (run : CompileRun) : Run unit :=
  error_details <-
    match log_file run with
    | Some log_content =>
        act w ReadLog ;;; ret (error_details_of_log log_content (stderr run))
    | None =>
        ret (or_else (stderr run)
               "LaTeX compilation failed - no log file generated")
    end ;;
  raise (RuntimeError
           ("LaTeX compilation failed:"
            +:+ String nl (String nl error_details))).

Definition compile_tikz_to_image (w : World) (tikz_code : string) : Run string :=
  probe w (pdflatex_found w) "pdflatex"
    "pdflatex not found. Please install TeX Live or MiKTeX." ;;;
  probe w (convert_found w) "convert"
    "ImageMagick convert not found. Please install ImageMagick." ;;;
  with_temporary_directory w (
    let latex_content := normalize tikz_code in
    act w (WriteSource latex_content) ;;;
    act w RunCompiler ;;;
    let run := pdflatex w latex_content in
    (if (returncode run =? 0)%Z then ret tt else on_compile_error w run) ;;;
    (if pdf_file_exists run then ret tt
     else raise (RuntimeError "PDF file was not generated")) ;;;
    act w RunConverter ;;;
    let conv := convert w latex_content in
    (if (convert_returncode conv =? 0)%Z then ret tt
     else raise (RuntimeError
                   ("Image conversion failed: " +:+ convert_exception conv))) ;;;
    match png_file conv with
    | None => raise (RuntimeError "PNG file was not generated")
    | Some bytes => act w ReadImage ;;; ret (b64encode w bytes)
    end).

(** ** The request handler (source lines 168-217) *)

(** The JSON values an argument may hold. *)
#[warnings="-register-all"]
Inductive PyVal :=
| PyNone
| PyBool (b : bool)
| PyInt (n : Z)
| PyFloat (x : float)
| PyStr (s : string)
| PyList (items : list PyVal)
| PyDict (items : list (string * PyVal)).

(** [bool(v)] *)
Definition py_truthy (v : PyVal) : bool :=
  match v with
  | PyNone => false
  | PyBool b => b
  | PyInt n => negb (n =? 0)%Z
  | PyFloat x => negb (x =? 0)%float
  | PyStr s => truthy s
  | PyList items => list_truthy items
  | PyDict items => list_truthy items
  end.

(** [isinstance(v, str)] *)
Definition isinstance_str (v : PyVal) : bool :=
  match v with PyStr _ => true | _ => false end.

Inductive Content :=
| TextContent (text : string)
| ImageContent (data mimeType : string).

(** [arguments.get(key)]: [None] for a missing key. *)
Definition dict_get (arguments : gmap string PyVal) (key : string) : PyVal :=
  default PyNone (arguments !! key).

Definition handle_call_tool (w : World) (name : string)
  (arguments : option (gmap string PyVal)) : list Content * list Event :=
  let arguments := default ∅ arguments in
  if String.eqb name "render_tikz" then
    let tikz_code := dict_get arguments "tikz_code" in
    if negb (py_truthy tikz_code) || negb (isinstance_str tikz_code) then
      ([TextContent "Error: Valid TikZ code is required"], [])
    else
      match tikz_code with
      | PyStr code =>
          match compile_tikz_to_image w code [] with
          | (Returned image_base64, tr) =>
              ([TextContent "TikZ diagram rendered successfully";
                ImageContent image_base64 "image/png"], tr)
          | (Raised e, tr) =>
              ([TextContent ("Compilation Error: " +:+ exn_text e)], tr)
          end
      | _ => ([TextContent "Error: Valid TikZ code is required"], [])
      end
  else
    ([TextContent ("Unknown tool: " +:+ name
                   +:+ ". Available tools: render_tikz")], []).

(** ** Tool discovery (source lines 148-165) *)

(** [types.Tool], with the fields the listing sets. *)
Record Tool := mkTool {
  tool_name : string;
  tool_description : string;
  inputSchema : PyVal
}.

(** The one [types.Tool] of the listing. *)
Definition render_tikz_tool : Tool :=
  {| tool_name := "render_tikz";
     tool_description :=
       "Render TikZ code to high-quality PNG image. Supports TikZ diagrams, mathematical plots, flowcharts, and technical illustrations.";
     inputSchema :=
       PyDict
         [("type", PyStr "object");
          ("properties",
           PyDict
             [("tikz_code",
               PyDict
                 [("type", PyStr "string");
                  ("description",
                   PyStr "TikZ/LaTeX code to render. Can include \begin{tikzpicture}...\end{tikzpicture} or full LaTeX document with \documentclass.")])]);
          ("required", PyList [PyStr "tikz_code"])] |}.

(** [handle_list_tools()] *)
Definition handle_list_tools : list Tool := [render_tikz_tool].

(** [d[key]] on a dictionary literal. *)
Fixpoint assoc_get (items : list (string * PyVal)) (key : string)
  : option PyVal :=
  match items with
  | [] => None
  | (k, v) :: rest => if String.eqb k key then Some v else assoc_get rest key
  end.

(** The argument names a tool's schema lists under ["required"]. *)
Definition required_arguments (t : Tool) : list string :=
  match inputSchema t with
  | PyDict items =>
      match assoc_get items "required" with
      | Some (PyList names) =>
          omap (fun v => match v with PyStr s => Some s | _ => None end) names
      | _ => []
      end
  | _ => []
  end.

(** ** Notions used in the statements *)

(** The loop over [todo] alone, keeping whether it was left by [break]
    (used to name the state in which the loop reaches a given line). *)
Fixpoint scan_flow (lines : list string) (i : nat) (todo : list string)
  (st : ScanState) : Flow :=
  match todo with
  | [] => Continue st
  | line :: rest =>
      match scan_line lines i line st with
      | Break st' => Break st'
      | Continue st' => scan_flow lines (S i) rest st'
      end
  end.

(** The state an iteration leaves behind, however the loop goes on. *)
Definition flow_state (f : Flow) : ScanState :=
  match f with Continue st | Break st => st end.

(** A text without line feed. *)
Definition one_line (s : string) : Prop := count_char nl s = 0.

(** Both accumulators hold one-line texts. *)
Definition tidy (st : ScanState) : Prop :=
  Forall one_line (error_lines st) /\ Forall one_line (context_lines st).

(** A text of white space only. *)
Fixpoint all_space (s : string) : bool :=
  match s with
  | EmptyString => true
  | String c s' => isspace c && all_space s'
  end.

(** [c] is [k], or [k] is a lower-case letter [a]-[z] and [c] is the same
    letter in upper case. *)
Definition same_ignoring_case (c k : ascii) : bool :=
  Ascii.eqb c k
  || ((97 <=? nat_of_ascii k) && (nat_of_ascii k <=? 122)
      && (nat_of_ascii c + 32 =? nat_of_ascii k)).

(** [text] is [word] character by character, the case of letters apart. *)
Fixpoint matches_ignoring_case (text word : string) : bool :=
  match text, word with
  | EmptyString, EmptyString => true
  | String c text', String k word' =>
      same_ignoring_case c k && matches_ignoring_case text' word'
  | _, _ => false
  end.

(** A character below 128 that is no capital letter, and a word of such
    characters: the keywords of the scan are such words. *)
Definition plain_char (k : ascii) : bool :=
  (nat_of_ascii k <? 128)
  && negb ((65 <=? nat_of_ascii k) && (nat_of_ascii k <=? 90)).

Fixpoint plain (word : string) : bool :=
  match word with
  | EmptyString => true
  | String k word' => plain_char k && plain word'
  end.

(** The actions of a run up to and with the call of the compiler, for the
    document [c]. *)
Definition compile_steps (c : string) : list Event :=
  [ProbeTool "pdflatex"; ProbeTool "convert"; CreateWorkspace;
   WriteSource c; RunCompiler].

(** None of the actions [es] raises an exception of its own. *)
Definition unfaulted (w : World) (es : list Event) : Prop :=
  Forall (fun e => fault w e = None) es.

(** [error_details] at the end of the [except] block, as a value. *)
Definition compile_error_details (run : CompileRun) : string :=
  match log_file run with
  | Some log_content => error_details_of_log log_content (stderr run)
  | None => or_else (stderr run) "LaTeX compilation failed - no log file generated"
  end.

(** ** Sample inputs *)

Definition NL : string := String nl "".

(** A log with one error block, closed by an empty line, and more after it. *)
Definition sample_log : string :=
  "This is pdfTeX, Version 3.14" +:+ NL +:+
  "(./diagram.tex" +:+ NL +:+
  "LaTeX2e <2020-10-01>" +:+ NL +:+
  "! Undefined control sequence." +:+ NL +:+
  "l.12 \foo" +:+ NL +:+
  "   bar" +:+ NL +:+
  "The control sequence at the end of the top line" +:+ NL +:+
  NL +:+
  "Here is how much of TeX's memory you used:" +:+ NL +:+
  "! Emergency stop." +:+ NL.

(** A log in which no line holds a keyword. *)
Definition quiet_log : string :=
  "This is pdfTeX, Version 3.14" +:+ NL +:+
  "   " +:+ NL +:+
  "Output written on diagram.pdf (1 page)." +:+ NL.

(** A log of 62 lines without keyword; every fourth line is empty or white
    space. *)
Definition long_quiet_lines : list string :=
  [
   "p00"; "p01"; "p02"; ""; "p04"; "p05"; "p06"; "   ";
   "p08"; "p09"; "p10"; ""; "p12"; "p13"; "p14"; "   ";
   "p16"; "p17"; "p18"; ""; "p20"; "p21"; "p22"; "   ";
   "p24"; "p25"; "p26"; ""; "p28"; "p29"; "p30"; "   ";
   "p32"; "p33"; "p34"; ""; "p36"; "p37"; "p38"; "   ";
   "p40"; "p41"; "p42"; ""; "p44"; "p45"; "p46"; "   ";
   "p48"; "p49"; "p50"; ""; "p52"; "p53"; "p54"; "   ";
   "p56"; "p57"; "p58"; ""; "p60"; "p61"].

Definition long_quiet_log : string := join NL long_quiet_lines.

(** A world whose compiler exits with status 1, writes no log, and leaves a
    page description behind all the same. *)
Definition world_exit1_with_pdf : World :=
  {| pdflatex_found := true;
     convert_found := true;
     pdflatex := fun _ =>
       {| returncode := 1; stderr := ""; log_file := None;
          pdf_file_exists := true |};
     convert := fun _ =>
       {| convert_returncode := 0; convert_exception := "";
          png_file := Some "PNG" |};
     b64encode := fun bytes => bytes;
     fault := fun _ => None |}.

(** A world whose compiler exits with status 0 and leaves no page
    description. *)
Definition world_exit0_without_pdf : World :=
  {| pdflatex_found := true;
     convert_found := true;
     pdflatex := fun _ =>
       {| returncode := 0; stderr := ""; log_file := Some "";
          pdf_file_exists := false |};
     convert := fun _ =>
       {| convert_returncode := 0; convert_exception := "";
          png_file := Some "PNG" |};
     b64encode := fun bytes => bytes;
     fault := fun _ => None |}.


(** A world in which everything works. *)
Definition world_success : World :=
  {| pdflatex_found := true;
     convert_found := true;
     pdflatex := fun _ =>
       {| returncode := 0; stderr := ""; log_file := Some "";
          pdf_file_exists := true |};
     convert := fun _ =>
       {| convert_returncode := 0; convert_exception := "";
          png_file := Some "PNG" |};
     b64encode := fun bytes => "base64:" +:+ bytes;
     fault := fun _ => None |}.

(** A world whose converter exits with status 1 although it wrote the
    image. *)
Definition world_convert_fails : World :=
  {| pdflatex_found := true;
     convert_found := true;
     pdflatex := fun _ =>
       {| returncode := 0; stderr := ""; log_file := Some "";
          pdf_file_exists := true |};
     convert := fun _ =>
       {| convert_returncode := 1;
          convert_exception := "Command returned non-zero exit status 1.";
          png_file := Some "PNG" |};
     b64encode := fun bytes => bytes;
     fault := fun _ => None |}.

(** A world without ImageMagick. *)
Definition world_without_convert : World :=
  {| pdflatex_found := true;
     convert_found := false;
     pdflatex := fun _ =>
       {| returncode := 0; stderr := ""; log_file := Some "";
          pdf_file_exists := true |};
     convert := fun _ =>
       {| convert_returncode := 0; convert_exception := "";
          png_file := Some "PNG" |};
     b64encode := fun bytes => bytes;
     fault := fun _ => None |}.

(** A world whose compiler exits with status 1 and leaves [sample_log]. *)
Definition world_exit1_with_log : World :=
  {| pdflatex_found := true;
     convert_found := true;
     pdflatex := fun _ =>
       {| returncode := 1; stderr := ""; log_file := Some sample_log;
          pdf_file_exists := false |};
     convert := fun _ =>
       {| convert_returncode := 0; convert_exception := "";
          png_file := Some "PNG" |};
     b64encode := fun bytes => bytes;
     fault := fun _ => None |}.




(** Ten errors in a row, each after two lines of its own and with no empty
    line between them. *)
Definition crowded_lines : list string :=
  ["a0"; "b0"; "! E0"; "a1"; "b1"; "! E1"; "a2"; "b2"; "! E2";
   "a3"; "b3"; "! E3"; "a4"; "b4"; "! E4"; "a5"; "b5"; "! E5";
   "a6"; "b6"; "! E6"; "a7"; "b7"; "! E7"; "a8"; "b8"; "! E8";
   "a9"; "b9"; "! E9"].

(** * Properties *)

(** ** Strings *)

#[local] Arguments String.append : simpl nomatch.

Lemma startswith_spec (p s : string) :
  startswith p s = true <-> exists post, s = p +:+ post.
Proof.
  revert s. induction p as [|a p IH]; intros s; simpl.
  - split; [intros _; now exists s | reflexivity].
  - destruct s as [|b s].
    + split; [discriminate | intros [post H]; discriminate].
    + rewrite andb_true_iff, Ascii.eqb_eq, IH. split.
      * intros [-> [post ->]]. now exists post.
      * intros [post H]. injection H as -> ->. eauto.
Qed.

Lemma contains_spec (needle hay : string) :
  contains needle hay = true <-> exists pre post, hay = pre +:+ needle +:+ post.
Proof.
  induction hay as [|c hay IH].
  - simpl. rewrite orb_false_r, startswith_spec. split.
    + intros [post H]. now exists "", post.
    + intros [pre [post H]]. destruct pre; [now exists post | discriminate].
  - simpl. rewrite orb_true_iff, startswith_spec, IH. split.
    + intros [[post H] | [pre [post H]]].
      * now exists "", post.
      * exists (String c pre), post. simpl. now rewrite H.
    + intros [pre [post H]]. destruct pre as [|x pre]; simpl in H.
      * left. now exists post.
      * right. injection H as _ H. now exists pre, post.
Qed.

Lemma contains_false_spec (needle hay : string) :
  contains needle hay = false <->
  ~ exists pre post, hay = pre +:+ needle +:+ post.
Proof.
  split.
  - intros H H'. apply contains_spec in H'. congruence.
  - intros H. destruct (contains needle hay) eqn:E; [| reflexivity].
    exfalso. apply H. now apply contains_spec.
Qed.

Lemma lstrip_count (c : ascii) (s : string) :
  count_char c (lstrip s) <= count_char c s.
Proof.
  induction s as [|x s IH]; simpl; [lia |].
  destruct (isspace x); simpl; lia.
Qed.

Lemma rstrip_count (c : ascii) (s : string) :
  count_char c (rstrip s) <= count_char c s.
Proof.
  induction s as [|x s IH]; simpl; [lia |].
  destruct (rstrip s) as [|y r] eqn:E.
  - destruct (isspace x); simpl in *; lia.
  - simpl in *. lia.
Qed.

Lemma strip_one_line (s : string) : one_line s -> one_line (strip s).
Proof.
  unfold one_line, strip. intros H.
  pose proof (rstrip_count nl (lstrip s)). pose proof (lstrip_count nl s). lia.
Qed.

Lemma split_not_nil (sep : ascii) (s : string) : split sep s <> [].
Proof.
  induction s as [|c s IH]; simpl; [discriminate |].
  destruct (Ascii.eqb c sep); [discriminate |].
  destruct (split sep s); [contradiction | discriminate].
Qed.

Lemma split_one_line (s : string) : Forall one_line (split nl s).
Proof.
  induction s as [|c s IH]; simpl.
  - repeat constructor.
  - destruct (Ascii.eqb c nl) eqn:E.
    + constructor; [reflexivity | exact IH].
    + destruct (split nl s) as [|h t] eqn:Hs.
      * constructor; [| constructor]. unfold one_line. simpl. now rewrite E.
      * inversion IH; subst. constructor; [| assumption].
        unfold one_line in *. simpl. now rewrite E.
Qed.

Lemma split_one_line_id (s : string) : one_line s -> split nl s = [s].
Proof.
  unfold one_line. induction s as [|c s IH]; simpl; [reflexivity |].
  destruct (Ascii.eqb c nl); [discriminate |]. simpl. intros H.
  now rewrite (IH H).
Qed.

Lemma split_append_nl (a b : string) :
  one_line a -> split nl (a +:+ String nl b) = a :: split nl b.
Proof.
  unfold one_line. induction a as [|c a IH]; simpl.
  - intros _. reflexivity.
  - destruct (Ascii.eqb c nl); [discriminate |]. simpl. intros H.
    now rewrite (IH H).
Qed.

(** Splitting the join of one-line parts gives the parts back. *)
Lemma split_join (parts : list string) :
  parts <> [] -> Forall one_line parts ->
  split nl (join (String nl "") parts) = parts.
Proof.
  induction parts as [|x rest IH]; [contradiction |].
  intros _ Hall. inversion Hall as [|? ? Hx Hrest]; subst.
  destruct rest as [|y rest'].
  - simpl. now apply split_one_line_id.
  - change (join (String nl "") (x :: y :: rest'))
      with (x +:+ String nl "" +:+ join (String nl "") (y :: rest')).
    change (String nl "" +:+ join (String nl "") (y :: rest'))
      with (String nl (join (String nl "") (y :: rest'))).
    rewrite split_append_nl by assumption.
    rewrite IH; [reflexivity | discriminate | assumption].
Qed.

Lemma line_count_join (parts : list string) :
  Forall one_line parts ->
  line_count (join (String nl "") parts) = Nat.max 1 (length parts).
Proof.
  intros Hall. unfold line_count. destruct parts as [|x rest].
  - reflexivity.
  - rewrite split_join; [simpl; lia | discriminate | assumption].
Qed.

Lemma lstrip_all_space (s : string) : lstrip s = "" <-> all_space s = true.
Proof.
  induction s as [|c s IH]; simpl; [tauto |].
  destruct (isspace c); simpl; [exact IH |]. split; discriminate.
Qed.

Lemma rstrip_all_space (s : string) : rstrip s = "" <-> all_space s = true.
Proof.
  induction s as [|c s IH]; simpl; [tauto |].
  destruct (rstrip s) as [|y r] eqn:E.
  - destruct (isspace c); simpl.
    + split; [intros _; now apply IH | reflexivity].
    + split; discriminate.
  - split; [discriminate |]. rewrite andb_true_iff. intros [_ H].
    apply IH in H. discriminate.
Qed.

(** A line is blank, [not line.strip()], exactly when it is white space. *)
Lemma strip_blank (s : string) : strip s = "" <-> all_space s = true.
Proof.
  unfold strip. rewrite rstrip_all_space. split.
  - intros H. induction s as [|c s IH]; simpl in *; [reflexivity |].
    destruct (isspace c) eqn:Hc; simpl; [now apply IH |].
    simpl in H. rewrite Hc in H. discriminate.
  - intros H. apply lstrip_all_space in H. now rewrite H.
Qed.

Lemma lower_char_space (c : ascii) : isspace c = true -> lower_char c = c.
Proof.
  unfold isspace, lower_char. intros H.
  destruct (_ || _) eqn:E in |- *; [| reflexivity].
  exfalso. revert H E.
  repeat rewrite ?orb_true_iff, ?andb_true_iff, ?negb_true_iff,
    ?Nat.leb_le, ?Nat.eqb_eq, ?Nat.eqb_neq. lia.
Qed.

Lemma lower_all_space (s : string) : all_space s = true -> lower s = s.
Proof.
  induction s as [|c s IH]; simpl; [reflexivity |].
  rewrite andb_true_iff. intros [Hc Hs].
  now rewrite (lower_char_space c Hc), (IH Hs).
Qed.

Lemma startswith_all_space (c : ascii) (p s : string) :
  isspace c = false -> all_space s = true -> startswith (String c p) s = false.
Proof.
  intros Hc. destruct s as [|b s]; simpl; [reflexivity |].
  rewrite andb_true_iff. intros [Hb _].
  destruct (Ascii.eqb c b) eqn:E; [| reflexivity].
  apply Ascii.eqb_eq in E. congruence.
Qed.

Lemma contains_all_space (c : ascii) (p s : string) :
  isspace c = false -> all_space s = true -> contains (String c p) s = false.
Proof.
  intros Hc. induction s as [|b s IH]; intros Hs.
  - reflexivity.
  - cbn [contains]. rewrite (startswith_all_space c p _ Hc Hs).
    simpl in Hs. apply andb_true_iff in Hs as [_ Hs]. now apply IH.
Qed.

(** ** The scan loop *)

Lemma truthy_spec (s : string) : truthy s = true <-> s <> "".
Proof. destruct s; simpl; split; try discriminate; try reflexivity; now intros []. Qed.

Lemma list_truthy_spec {A} (l : list A) : list_truthy l = true <-> l <> [].
Proof. destruct l; simpl; split; try discriminate; try reflexivity; now intros []. Qed.

Lemma list_truthy_false {A} (l : list A) : list_truthy l = false <-> l = [].
Proof. destruct l; simpl; split; try discriminate; reflexivity. Qed.

(** What one back-fill pass appends. *)
Lemma backfill_one_spec (lines ctx : list string) (j : nat) :
  let c := strip (nth j lines "") in
  (c <> "" /\ (c ∉ ctx) /\ backfill_one lines ctx j = ctx ++ [c])
  \/ ((c = "" \/ c ∈ ctx) /\ backfill_one lines ctx j = ctx).
Proof.
  intros c. unfold backfill_one. fold c.
  destruct (truthy c) eqn:Ht; simpl.
  - apply truthy_spec in Ht.
    destruct (bool_decide (c ∈ ctx)) eqn:Hd; simpl.
    + apply bool_decide_eq_true in Hd. right. auto.
    + apply bool_decide_eq_false in Hd. left. auto.
  - right. split; [left | reflexivity].
    destruct c; [reflexivity | discriminate].
Qed.

(** The back-fill over any index list: what is appended is duplicate-free,
    new to [ctx], non-empty, and comes from the lines at those indices. *)
Lemma backfill_fold_spec (lines : list string) (js : list nat) :
  forall ctx : list string,
  exists added : list string,
    fold_left (backfill_one lines) js ctx = ctx ++ added
    /\ length added <= length js
    /\ NoDup added
    /\ forall x, x ∈ added <->
         x <> "" /\ (x ∉ ctx) /\ exists j, j ∈ js /\ strip (nth j lines "") = x.
Proof.
  induction js as [|j js IH]; intros ctx; simpl.
  - exists []. rewrite app_nil_r. split; [reflexivity |].
    split; [simpl; lia |]. split; [apply NoDup_nil_2 |].
    intros x. split.
    + intros H. now apply elem_of_nil in H.
    + intros (_ & _ & j & Hj & _). now apply elem_of_nil in Hj.
  - destruct (backfill_one_spec lines ctx j) as [(Hne & Hnew & ->) | (Hskip & ->)].
    + destruct (IH (ctx ++ [strip (nth j lines "")]))
        as (added & -> & Hlen & Hnd & Hin).
      exists (strip (nth j lines "") :: added).
      rewrite <- app_assoc. split; [reflexivity |].
      split; [simpl; lia |]. split.
      * apply NoDup_cons. split; [| assumption].
        intros H. apply Hin in H as (_ & H & _). apply H.
        apply elem_of_app. right. now apply list_elem_of_singleton.
      * intros x. split.
        -- intros H. apply elem_of_cons in H as [-> | H].
           ++ split; [assumption |]. split; [assumption |].
              exists j. split; [apply elem_of_cons; now left | reflexivity].
           ++ apply Hin in H as (Hx & Hctx & j' & Hj' & E).
              split; [assumption |]. split.
              ** intros H'. apply Hctx. apply elem_of_app. now left.
              ** exists j'. split; [apply elem_of_cons; now right | assumption].
        -- intros (Hx & Hctx & j' & Hj' & E). apply elem_of_cons.
           destruct (decide (x = strip (nth j lines ""))) as [-> | Hd];
             [now left |].
           right. apply Hin. split; [assumption |]. split.
           ++ intros H. apply elem_of_app in H as [H | H]; [contradiction |].
              now apply list_elem_of_singleton in H.
           ++ apply elem_of_cons in Hj' as [-> | Hj']; [congruence |]. eauto.
    + destruct (IH ctx) as (added & -> & Hlen & Hnd & Hin).
      exists added. split; [reflexivity |]. split; [lia |].
      split; [assumption |]. intros x. split.
      * intros H. apply Hin in H as (Hx & Hctx & j' & Hj' & E).
        split; [assumption |]. split; [assumption |].
        exists j'. split; [apply elem_of_cons; now right | assumption].
      * intros (Hx & Hctx & j' & Hj' & E). apply Hin.
        split; [assumption |]. split; [assumption |].
        apply elem_of_cons in Hj' as [-> | Hj']; [| eauto].
        exfalso. destruct Hskip as [H | H]; congruence.
Qed.

(** The back-fill at line [i]: at most the two lines before it. *)
Lemma backfill_spec (lines : list string) (i : nat) (ctx : list string) :
  exists added : list string,
    backfill lines i ctx = ctx ++ added
    /\ length added <= 2
    /\ NoDup added
    /\ forall x, x ∈ added <->
         x <> "" /\ (x ∉ ctx) /\
         exists j l, i - 2 <= j < i /\ lines !! j = Some l /\ strip l = x.
Proof.
  unfold backfill. rewrite Nat.max_0_l.
  destruct (backfill_fold_spec lines (seq (i - 2) (i - (i - 2))) ctx)
    as (added & E & Hlen & Hnd & Hin).
  exists added. split; [assumption |]. split.
  - rewrite length_seq in Hlen. lia.
  - split; [assumption |]. intros x. rewrite Hin. split.
    + intros (Hx & Hctx & j & Hj & Ej). repeat split; try assumption.
      apply elem_of_seq in Hj.
      destruct (lines !! j) as [l|] eqn:El.
      * exists j, l. rewrite (nth_lookup_Some _ _ _ _ El) in Ej.
        repeat split; try assumption; lia.
      * rewrite nth_lookup, El in Ej. change ("" = x) in Ej. congruence.
    + intros (Hx & Hctx & j & l & Hj & El & Ej). repeat split; try assumption.
      exists j. split; [apply elem_of_seq; lia |].
      now rewrite (nth_lookup_Some _ _ _ _ El).
Qed.

Lemma collect_related_spec (line line_clean : string) (errs : list string) :
  collect_related line line_clean errs = errs ++ [line_clean]
  \/ (10 <= length errs /\ collect_related line line_clean errs = errs).
Proof.
  unfold collect_related.
  repeat match goal with
         | |- context [if ?b then _ else _] => destruct b eqn:?; auto
         end.
  right. split; [| reflexivity].
  match goal with H : (_ <? _) = false |- _ => apply Nat.ltb_ge in H; exact H end.
Qed.

Lemma backfill_one_line (lines : list string) (i : nat) (ctx : list string) :
  Forall one_line lines -> Forall one_line ctx ->
  Forall one_line (backfill lines i ctx).
Proof.
  intros Hlines Hctx.
  destruct (backfill_spec lines i ctx) as (added & -> & _ & _ & Hin).
  apply Forall_app. split; [assumption |].
  apply Forall_forall. intros x Hx.
  apply Hin in Hx as (_ & _ & j & l & _ & Hl & <-).
  apply strip_one_line.
  rewrite Forall_forall in Hlines. apply Hlines.
  apply list_elem_of_lookup. eauto.
Qed.

Lemma collect_related_one_line (line line_clean : string) (errs : list string) :
  one_line line_clean -> Forall one_line errs ->
  Forall one_line (collect_related line line_clean errs).
Proof.
  intros Hc Herrs.
  destruct (collect_related_spec line line_clean errs) as [-> | [_ ->]];
    [| assumption].
  apply Forall_app. split; [assumption | now constructor].
Qed.

Lemma scan_line_tidy (lines : list string) (i : nat) (line : string)
  (st : ScanState) :
  Forall one_line lines -> one_line line -> tidy st ->
  tidy (flow_state (scan_line lines i line st)).
Proof.
  intros Hlines Hline [Herrs Hctx]. unfold scan_line.
  destruct (is_trigger line).
  - split; simpl.
    + apply Forall_app. split; [assumption |].
      constructor; [now apply strip_one_line | constructor].
    + now apply backfill_one_line.
  - destruct (error_section st); [| now split].
    destruct (truthy (strip line)).
    + split; simpl; [| assumption].
      apply collect_related_one_line; [now apply strip_one_line | assumption].
    + destruct (0 <? length (error_lines st)); now split.
Qed.

Lemma scan_loop_tidy (lines : list string) (todo : list string) :
  Forall one_line lines -> Forall one_line todo ->
  forall (i : nat) (st : ScanState), tidy st -> tidy (scan_loop lines i todo st).
Proof.
  intros Hlines. induction todo as [|line rest IH]; intros Htodo i st Hst.
  - exact Hst.
  - inversion Htodo as [|? ? Hline Hrest]; subst. simpl.
    pose proof (scan_line_tidy lines i line st Hlines Hline Hst) as Hnext.
    destruct (scan_line lines i line st) as [st' | st']; simpl in Hnext.
    + now apply IH.
    + exact Hnext.
Qed.

Lemma scan_tidy (lines : list string) :
  Forall one_line lines -> tidy (scan lines).
Proof.
  intros H. apply scan_loop_tidy; try assumption. split; constructor.
Qed.

(** Outside the error section a line without keyword changes nothing. *)
Lemma scan_loop_idle (lines todo : list string) :
  (forall line, line ∈ todo -> is_trigger line = false) ->
  forall (i : nat) (st : ScanState),
    error_section st = false -> scan_loop lines i todo st = st.
Proof.
  induction todo as [|line rest IH]; intros Hno i st Hst; [reflexivity |].
  simpl. unfold scan_line.
  rewrite (Hno line) by (apply elem_of_cons; now left). rewrite Hst.
  apply IH; [| assumption].
  intros l Hl. apply Hno. apply elem_of_cons. now right.
Qed.

(** A blank line holds no keyword. *)
Lemma is_trigger_blank (line : string) : strip line = "" -> is_trigger line = false.
Proof.
  intros H. apply strip_blank in H. unfold is_trigger, keywords.
  rewrite (lower_all_space line H). simpl.
  rewrite !contains_all_space by (reflexivity || assumption). reflexivity.
Qed.

Lemma scan_line_blank (lines : list string) (i : nat) (line : string)
  (st : ScanState) :
  strip line = "" -> error_section st = true -> error_lines st <> [] ->
  scan_line lines i line st = Break st.
Proof.
  intros Hblank Hsec Herrs. unfold scan_line.
  rewrite (is_trigger_blank line Hblank), Hsec, Hblank. simpl.
  destruct (error_lines st); [contradiction | reflexivity].
Qed.

Lemma fold_left_agree {A B} (f g : A -> B -> A) (l : list B) :
  (forall a b, b ∈ l -> f a b = g a b) ->
  forall a, fold_left f l a = fold_left g l a.
Proof.
  induction l as [|b l IH]; intros H a; [reflexivity |]. simpl.
  rewrite (H a b) by (apply elem_of_cons; now left).
  apply IH. intros a' b' Hb'. apply H. apply elem_of_cons. now right.
Qed.

(** The back-fill at [i] reads only the lines before [i]. *)
Lemma backfill_prefix (pre ext : list string) (i : nat) (ctx : list string) :
  i <= length pre -> backfill (pre ++ ext) i ctx = backfill pre i ctx.
Proof.
  intros Hi. unfold backfill. apply fold_left_agree.
  intros a j Hj. apply elem_of_seq in Hj. unfold backfill_one.
  rewrite app_nth1 by lia. reflexivity.
Qed.

Lemma scan_line_prefix (pre ext : list string) (i : nat) (line : string)
  (st : ScanState) :
  i <= length pre -> scan_line (pre ++ ext) i line st = scan_line pre i line st.
Proof.
  intros Hi. unfold scan_line. now rewrite backfill_prefix.
Qed.

Lemma scan_flow_prefix (pre ext : list string) (todo : list string) :
  forall (i : nat) (st : ScanState),
    i + length todo <= length pre ->
    scan_flow (pre ++ ext) i todo st = scan_flow pre i todo st.
Proof.
  induction todo as [|line rest IH]; intros i st Hi; [reflexivity |].
  simpl in *. rewrite scan_line_prefix by lia.
  destruct (scan_line pre i line st); [| reflexivity].
  apply IH. lia.
Qed.

(** The loop over [a ++ b] is the loop over [a], then over [b] unless the
    first was left by [break]. *)
Lemma scan_loop_app (lines a b : list string) :
  forall (i : nat) (st : ScanState),
    scan_loop lines i (a ++ b) st =
    match scan_flow lines i a st with
    | Break st' => st'
    | Continue st' => scan_loop lines (i + length a) b st'
    end.
Proof.
  induction a as [|line rest IH]; intros i st; simpl.
  - now rewrite Nat.add_0_r.
  - destruct (scan_line lines i line st); [| reflexivity].
    rewrite IH. now rewrite Nat.add_succ_r.
Qed.

(** Inside the error section there is an error line: the flag is only set
    together with an append. *)
Lemma scan_line_section (lines : list string) (i : nat) (line : string)
  (st : ScanState) :
  (error_section st = true -> error_lines st <> []) ->
  error_section (flow_state (scan_line lines i line st)) = true ->
  error_lines (flow_state (scan_line lines i line st)) <> [].
Proof.
  intros Hst. unfold scan_line. destruct (is_trigger line); simpl.
  - intros _. now destruct (error_lines st).
  - destruct (error_section st) eqn:Hsec; [| simpl; congruence].
    destruct (truthy (strip line)); simpl.
    + intros _.
      destruct (collect_related_spec line (strip line) (error_lines st))
        as [-> | [_ ->]]; [now destruct (error_lines st) | auto].
    + destruct (0 <? length (error_lines st)); simpl; auto.
Qed.

(** ** Document normalizer *)

(** C6 — An input that contains the full-document marker [\documentclass]
    anywhere is returned by the normalizer unchanged, character for
    character. *)
Theorem normalize_full_document (tikz_code : string) :
  (exists pre post, tikz_code = pre +:+ "\documentclass" +:+ post) ->
  normalize tikz_code = tikz_code.
Proof.
  intros H. apply contains_spec in H. unfold normalize, marker. now rewrite H.
Qed.

Lemma normalize_full_document_witness :
  normalize "% my figure
\documentclass{article}\begin{document}x\end{document}"
  = "% my figure
\documentclass{article}\begin{document}x\end{document}".
Proof.
  apply (normalize_full_document "% my figure
\documentclass{article}\begin{document}x\end{document}").
  apply contains_spec. reflexivity.
Defined.

(** C7 — An input without the marker is wrapped: the output is the constant
    [template_head], then the input verbatim, then the constant
    [template_tail]; neither constant depends on the input, and the input is
    a contiguous substring of the output. *)
Theorem normalize_fragment (tikz_code : string) :
  ~ (exists pre post, tikz_code = pre +:+ "\documentclass" +:+ post) ->
  normalize tikz_code = template_head +:+ tikz_code +:+ template_tail
  /\ contains tikz_code (normalize tikz_code) = true.
Proof.
  intros H. apply contains_false_spec in H.
  assert (normalize tikz_code = template_head +:+ tikz_code +:+ template_tail)
    as E by (unfold normalize, marker; now rewrite H).
  split; [exact E |]. rewrite E. apply contains_spec. eauto.
Qed.

Lemma normalize_fragment_witness :
  normalize "\draw (0,0) rectangle (1,1);"
  = template_head +:+ "\draw (0,0) rectangle (1,1);" +:+ template_tail
  /\ contains "\draw (0,0) rectangle (1,1);"
       (normalize "\draw (0,0) rectangle (1,1);") = true.
Proof.
  apply (normalize_fragment "\draw (0,0) rectangle (1,1);").
  apply contains_false_spec. reflexivity.
Defined.

(** The wrapper, line by line, as the f-string of the source has it. *)
Example template_lines :
  split nl (normalize "X")
  = ["\documentclass[border=2pt]{standalone}"; "\usepackage{tikz}";
     "\usepackage{pgfplots}"; "\usepackage{amsmath}"; "\usepackage{amssymb}";
     "\usepackage{xcolor}";
     "\usetikzlibrary{shapes,arrows,positioning,calc,decorations.pathreplacing,patterns,fit,backgrounds,mindmap,trees,arrows.meta,angles,quotes}";
     "\pgfplotsset{compat=1.18}"; ""; "\begin{document}"; "X";
     "\end{document}"; ""].
Proof. reflexivity. Qed.

(** X1 — The template itself opens with the marker, so a wrapped fragment is a
    full document for the normalizer. *)
Lemma normalize_idempotent (tikz_code : string) :
  normalize (normalize tikz_code) = normalize tikz_code.
Proof.
  assert (contains marker (normalize tikz_code) = true) as H.
  { unfold normalize. destruct (contains marker tikz_code) eqn:E; [exact E |].
    apply contains_spec. exists "". eexists. cbv. reflexivity. }
  unfold normalize at 1. now rewrite H.
Qed.

(** ** Log diagnostic extractor *)

Lemma last_n_length {A} (n : nat) (l : list A) : length (last_n n l) <= n.
Proof. unfold last_n. rewrite length_drop. lia. Qed.

Lemma filter_Forall {A} (P : A -> Prop) (f : A -> bool) (l : list A) :
  Forall P l -> Forall P (List.filter f l).
Proof.
  rewrite !Forall_forall. intros H x Hx.
  apply list_elem_of_In, filter_In in Hx as [Hx _].
  apply H. now apply list_elem_of_In.
Qed.

Lemma report_lines_one_line (lines : list string) :
  Forall one_line lines -> Forall one_line (report_lines lines).
Proof.
  intros H. unfold report_lines. destruct (scan_tidy lines H) as [Herrs Hctx].
  destruct (_ || _).
  - apply Forall_take, Forall_app. split; [assumption |].
    apply Forall_app. split; [| assumption]. now repeat constructor.
  - unfold last_n. now apply Forall_drop, filter_Forall, Forall_drop.
Qed.

(** C2 — For every log text the report has at most 20 lines, as a list and
    as the joined text: when an accumulator is non-empty it is the first 20
    of [context_lines], the separator ["--- Error Details ---"], then
    [error_lines]; otherwise it is the fallback, of at most 15 lines. *)
Theorem report_at_most_20_lines (log_content : string) :
  let lines := split nl log_content in
  let st := scan lines in
  length (report_lines lines) <= 20
  /\ line_count (diagnostic_report log_content) <= 20
  /\ (context_lines st <> [] \/ error_lines st <> [] ->
      report_lines lines
      = take 20 (context_lines st ++ ["--- Error Details ---"] ++ error_lines st))
  /\ (context_lines st = [] /\ error_lines st = [] ->
      length (report_lines lines) <= 15).
Proof.
  intros lines st.
  assert (length (report_lines lines) <= 20) as Hlen.
  { unfold report_lines. fold st. destruct (_ || _).
    - rewrite length_take. lia.
    - pose proof (last_n_length 15
        (List.filter (fun line => truthy (strip line)) (last_n 50 lines))). lia. }
  split; [exact Hlen |]. split.
  - unfold diagnostic_report. fold lines.
    rewrite line_count_join
      by (apply report_lines_one_line, split_one_line). lia.
  - split.
    + intros H. unfold report_lines. fold st.
      assert (list_truthy (context_lines st) || list_truthy (error_lines st)
              = true) as ->; [| reflexivity].
      apply orb_true_iff. destruct H as [H | H]; [left | right];
        now apply list_truthy_spec.
    + intros [Hc He]. unfold report_lines. fold st. rewrite Hc, He. simpl.
      apply last_n_length.
Qed.

(** *** Case-insensitive containment, without [lower] *)

Lemma lower_app (a b : string) : lower (a +:+ b) = lower a +:+ lower b.
Proof. induction a as [|c a IH]; simpl; [reflexivity | now rewrite IH]. Qed.

(** [lower] works character by character, so a split of the lowered text is
    a split of the text. *)
Lemma lower_split (s x y : string) :
  lower s = x +:+ y -> exists a b, s = a +:+ b /\ lower a = x /\ lower b = y.
Proof.
  revert s. induction x as [|k x IH]; intros s H.
  - exists "", s. auto.
  - destruct s as [|c s]; [discriminate |]. simpl in H.
    injection H as Hc Hs. destruct (IH s Hs) as (a & b & -> & Ha & Hb).
    exists (String c a), b. simpl. rewrite Hc, Ha. auto.
Qed.

(** For a plain character [k], [lower] sends [c] to [k] exactly when [c] is
    [k] or the capital letter of [k]. *)
Lemma lower_char_plain (c k : ascii) :
  plain_char k = true ->
  (lower_char c = k <-> same_ignoring_case c k = true).
Proof.
  unfold plain_char, lower_char, same_ignoring_case.
  pose proof (nat_ascii_bounded c) as Bc.
  pose proof (nat_ascii_bounded k) as Bk.
  rewrite andb_true_iff, negb_true_iff, andb_false_iff, Nat.ltb_lt,
    !Nat.leb_gt.
  intros [Hk Hnot].
  rewrite orb_true_iff, !andb_true_iff, !Nat.leb_le, Nat.eqb_eq, Ascii.eqb_eq.
  assert (c = k <-> nat_of_ascii c = nat_of_ascii k) as Heq.
  { split; [now intros -> |]. intros H.
    rewrite <- (ascii_nat_embedding c), <- (ascii_nat_embedding k).
    now rewrite H. }
  destruct (_ || _) eqn:Hup.
  - assert (nat_of_ascii c + 32 < 256) as Hb.
    { revert Hup.
      rewrite orb_true_iff, !andb_true_iff, negb_true_iff, !Nat.leb_le,
        Nat.eqb_neq. lia. }
    assert (ascii_of_nat (nat_of_ascii c + 32) = k
            <-> nat_of_ascii c + 32 = nat_of_ascii k) as Hlow.
    { split.
      - intros H. apply (f_equal nat_of_ascii) in H.
        now rewrite nat_ascii_embedding in H.
      - intros H. rewrite H. apply ascii_nat_embedding. }
    rewrite Hlow, Heq. revert Hup.
    rewrite orb_true_iff, !andb_true_iff, negb_true_iff, !Nat.leb_le,
      Nat.eqb_neq. lia.
  - rewrite Heq. revert Hup.
    rewrite orb_false_iff, !andb_false_iff, negb_false_iff, !Nat.leb_gt,
      Nat.eqb_eq. lia.
Qed.

Lemma lower_matches (text word : string) :
  plain word = true ->
  (lower text = word <-> matches_ignoring_case text word = true).
Proof.
  revert word. induction text as [|c text IH]; intros [|k word] Hp; simpl;
    try (split; discriminate); try tauto.
  simpl in Hp. apply andb_true_iff in Hp as [Hk Hword].
  rewrite andb_true_iff, <- (IH word Hword), <- (lower_char_plain c k Hk).
  split.
  - intros [= -> ->]. auto.
  - intros [-> ->]. reflexivity.
Qed.

(** The test [word in line.lower()] of the source, said without [lower]: a
    piece of the line is [word] up to the case of its letters. *)
Lemma contains_lower_spec (word line : string) :
  plain word = true ->
  (contains word (lower line) = true
   <-> exists pre mid post,
         line = pre +:+ mid +:+ post
         /\ matches_ignoring_case mid word = true).
Proof.
  intros Hp. rewrite contains_spec. split.
  - intros (pre' & post' & H).
    apply lower_split in H as (pre & rest & -> & _ & H).
    apply lower_split in H as (mid & post & -> & Hmid & _).
    exists pre, mid, post. split; [reflexivity |]. now apply lower_matches.
  - intros (pre & mid & post & -> & Hm). apply lower_matches in Hm; [| exact Hp].
    exists (lower pre), (lower post). now rewrite !lower_app, Hm.
Qed.

Lemma is_trigger_spec (line : string) :
  is_trigger line = true <->
  exists keyword pre mid post,
    keyword ∈ ["! "; "error:"; "undefined"; "missing"]
    /\ line = pre +:+ mid +:+ post
    /\ matches_ignoring_case mid keyword = true.
Proof.
  unfold is_trigger, keywords. rewrite existsb_exists. split.
  - intros (keyword & Hin & Hc). apply list_elem_of_In in Hin.
    assert (plain keyword = true) as Hp.
    { repeat (apply elem_of_cons in Hin as [-> | Hin]; [reflexivity |]).
      now apply elem_of_nil in Hin. }
    apply (contains_lower_spec keyword line Hp) in Hc
      as (pre & mid & post & E & Hm).
    exists keyword, pre, mid, post. auto.
  - intros (keyword & pre & mid & post & Hin & E & Hm). exists keyword.
    split; [now apply list_elem_of_In |].
    assert (plain keyword = true) as Hp.
    { repeat (apply elem_of_cons in Hin as [-> | Hin]; [reflexivity |]).
      now apply elem_of_nil in Hin. }
    apply (contains_lower_spec keyword line Hp). eauto.
Qed.

(** A list of lines checked by evaluation to hold no keyword. *)
Lemma keyword_free_check (lines : list string) :
  forallb (fun line => negb (is_trigger line)) lines = true ->
  forall line, line ∈ lines ->
    ~ exists keyword pre mid post,
        keyword ∈ ["! "; "error:"; "undefined"; "missing"]
        /\ line = pre +:+ mid +:+ post
        /\ matches_ignoring_case mid keyword = true.
Proof.
  intros H line Hline Hex. apply is_trigger_spec in Hex.
  rewrite forallb_forall in H. apply list_elem_of_In in Hline.
  specialize (H line Hline). rewrite Hex in H. discriminate.
Qed.

(** [last_n n] is Python's [l[-n:]]: the end of the list, of [n] entries or
    of all when there are fewer. *)
Lemma last_n_spec {A} (n : nat) (front window : list A) :
  length window = Nat.min n (length (front ++ window)) ->
  last_n n (front ++ window) = window.
Proof.
  intros H. unfold last_n. rewrite length_app in *.
  destruct (Nat.le_gt_cases (length front + length window) n) as [Hle | Hgt].
  - assert (length front = 0) as H0 by lia.
    destruct front; [| discriminate].
    simpl. now replace (length window - n) with 0 by lia.
  - replace (length front + length window - n) with (length front) by lia.
    apply drop_app_length.
Qed.

Lemma blank_filter (l : list string) :
  List.filter (fun line => truthy (strip line)) l
  = List.filter (fun line => negb (all_space line)) l.
Proof.
  apply filter_ext. intros line. destruct (all_space line) eqn:E.
  - apply strip_blank in E. now rewrite E.
  - destruct (strip line) eqn:Es; [| reflexivity].
    apply strip_blank in Es. congruence.
Qed.

(** C3 — When no line of the log holds a trigger keyword in any case, both
    accumulators stay empty and the report is the fallback: of the last 50
    lines of the log (all when there are fewer), those that are not white
    space only, and of these the last 15 (all when there are fewer),
    untrimmed. *)
Theorem no_keyword_fallback (log_content : string)
  (front window dropped kept : list string) :
  let lines := split nl log_content in
  (forall line, line ∈ lines ->
     ~ exists keyword pre mid post,
         keyword ∈ ["! "; "error:"; "undefined"; "missing"]
         /\ line = pre +:+ mid +:+ post
         /\ matches_ignoring_case mid keyword = true) ->
  lines = front ++ window ->
  length window = Nat.min 50 (length lines) ->
  List.filter (fun line => negb (all_space line)) window = dropped ++ kept ->
  length kept = Nat.min 15 (length (dropped ++ kept)) ->
  error_lines (scan lines) = [] /\ context_lines (scan lines) = []
  /\ report_lines lines = kept
  /\ diagnostic_report log_content = join (String nl "") kept.
Proof.
  intros lines Hno Hsplit Hwin Hfilter Hkept.
  assert (scan lines = scan_init) as Hscan.
  { apply scan_loop_idle; [| reflexivity].
    intros line Hline. destruct (is_trigger line) eqn:Ht; [| reflexivity].
    exfalso. apply (Hno line Hline). now apply is_trigger_spec. }
  assert (report_lines lines = kept) as Hrep.
  { unfold report_lines. rewrite Hscan. simpl.
    rewrite Hsplit in Hwin |- *. rewrite (last_n_spec 50 front window Hwin).
    rewrite blank_filter, Hfilter. now apply last_n_spec. }
  rewrite Hscan. repeat split; try assumption.
  unfold diagnostic_report. fold lines. now rewrite Hrep.
Qed.

Lemma no_keyword_fallback_witness :
  error_lines (scan (split nl long_quiet_log)) = []
  /\ context_lines (scan (split nl long_quiet_log)) = []
  /\ report_lines (split nl long_quiet_log)
     = ["p42"; "p44"; "p45"; "p46"; "p48"; "p49"; "p50"; "p52"; "p53"; "p54";
        "p56"; "p57"; "p58"; "p60"; "p61"]
  /\ diagnostic_report long_quiet_log
     = join (String nl "")
         ["p42"; "p44"; "p45"; "p46"; "p48"; "p49"; "p50"; "p52"; "p53";
          "p54"; "p56"; "p57"; "p58"; "p60"; "p61"].
Proof.
  apply (no_keyword_fallback long_quiet_log
           (take 12 long_quiet_lines) (drop 12 long_quiet_lines)
           (take 23 (List.filter (fun line => negb (all_space line))
                       (drop 12 long_quiet_lines)))
           ["p42"; "p44"; "p45"; "p46"; "p48"; "p49"; "p50"; "p52"; "p53";
            "p54"; "p56"; "p57"; "p58"; "p60"; "p61"]).
  - apply keyword_free_check. vm_compute. reflexivity.
  - vm_compute. reflexivity.
  - vm_compute. reflexivity.
  - vm_compute. reflexivity.
  - vm_compute. reflexivity.
Defined.



(** The keywords are found in any case of their letters, and only them. *)
Example is_trigger_cases :
  is_trigger "MISSING number, treated as zero." = true
  /\ is_trigger "! Undefined control sequence." = true
  /\ is_trigger "Undefined" = true
  /\ is_trigger "Package tikz Error: Giving up on this path." = true
  /\ is_trigger "!Emergency stop" = false
  /\ is_trigger "Overfull \hbox (badness 10000)" = false.
Proof. repeat split. Qed.


(** C5 — When the loop reaches a blank line in state [st], inside the error
    section and with an error line collected, the scan ends there: the
    result is [st] and the report is built from it, whatever follows the
    blank line. *)
Theorem blank_line_ends_scan (pre : list string) (line : string)
  (rest : list string) (st : ScanState) :
  scan_flow pre 0 pre scan_init = Continue st ->
  error_section st = true ->
  error_lines st <> [] ->
  strip line = "" ->
  scan (pre ++ line :: rest) = st
  /\ report_lines (pre ++ line :: rest)
     = take 20 (context_lines st ++ ["--- Error Details ---"] ++ error_lines st).
Proof.
  intros Hpre Hsec Herrs Hblank.
  assert (scan (pre ++ line :: rest) = st) as Hscan.
  { unfold scan. rewrite scan_loop_app.
    rewrite scan_flow_prefix by (simpl; lia). rewrite Hpre. simpl.
    now rewrite scan_line_blank. }
  split; [exact Hscan |].
  unfold report_lines. rewrite Hscan.
  destruct (error_lines st); [contradiction |].
  now rewrite orb_true_r.
Qed.

Lemma blank_line_ends_scan_witness :
  scan (["! Undefined control sequence."; "l.3 \foo"]
          ++ "" :: ["! Missing $ inserted."; "l.4 $"])
  = {| error_section := true;
       error_lines := ["! Undefined control sequence."; "l.3 \foo"];
       context_lines := [] |}
  /\ report_lines (["! Undefined control sequence."; "l.3 \foo"]
                     ++ "" :: ["! Missing $ inserted."; "l.4 $"])
     = take 20 ([] ++ ["--- Error Details ---"]
                  ++ ["! Undefined control sequence."; "l.3 \foo"]).
Proof.
  apply (blank_line_ends_scan
           ["! Undefined control sequence."; "l.3 \foo"] ""
           ["! Missing $ inserted."; "l.4 $"]
           {| error_section := true;
              error_lines := ["! Undefined control sequence."; "l.3 \foo"];
              context_lines := [] |});
    [reflexivity | reflexivity | discriminate | reflexivity].
Defined.

(** The same at the level of one iteration: the loop body answers [break]
    and the remaining lines are not visited. *)
Lemma scan_loop_blank (lines : list string) (i : nat) (line : string)
  (rest : list string) (st : ScanState) :
  strip line = "" -> error_section st = true -> error_lines st <> [] ->
  scan_loop lines i (line :: rest) st = st.
Proof. intros Hb Hs He. simpl. now rewrite scan_line_blank. Qed.

(** The hypothesis on [error_lines] in the two statements above always
    holds in the loop: the flag is never set without an append. *)
Lemma scan_flow_section (lines todo : list string) :
  forall (i : nat) (st : ScanState),
    (error_section st = true -> error_lines st <> []) ->
    error_section (flow_state (scan_flow lines i todo st)) = true ->
    error_lines (flow_state (scan_flow lines i todo st)) <> [].
Proof.
  induction todo as [|line rest IH]; intros i st Hst; simpl; [exact Hst |].
  pose proof (scan_line_section lines i line st Hst) as Hnext.
  destruct (scan_line lines i line st) as [st' | st']; simpl in *.
  - now apply IH.
  - exact Hnext.
Qed.

(** The spec's sample: the error block of [sample_log] ends at its empty
    line; the section after the separator opens with the triggering line. *)
Example sample_log_report :
  report_lines (split nl sample_log)
  = ["(./diagram.tex"; "LaTeX2e <2020-10-01>"; "--- Error Details ---";
     "! Undefined control sequence."; "l.12 \foo"; "bar";
     "The control sequence at the end of the top line"].
Proof. reflexivity. Qed.

Example quiet_log_report :
  report_lines (split nl quiet_log)
  = ["This is pdfTeX, Version 3.14"; "Output written on diagram.pdf (1 page)."].
Proof. reflexivity. Qed.

(** An empty log gives an empty report, and [error_details] is then taken
    from standard error, which the bound of 20 lines does not cover. *)
Example empty_log_details :
  report_lines (split nl "") = []
  /\ error_details_of_log "" "warning" = "warning"
  /\ error_details_of_log "" "" = "LaTeX compilation failed with unknown error".
Proof. repeat split. Qed.

Lemma error_details_of_log_report (log_content stderr : string) :
  diagnostic_report log_content <> "" ->
  error_details_of_log log_content stderr = diagnostic_report log_content.
Proof.
  intros H. unfold error_details_of_log.
  destruct (diagnostic_report log_content); [contradiction | reflexivity].
Qed.

(** ** The pipeline *)

(** One case distinction on a value the run depends on, if the run is a
    [match] on it. *)
Ltac split_on x :=
  match goal with
  | |- context [match x with _ => _ end] => destruct x eqn:?; simpl
  end.

(** The next case distinction of a run, in the order of the source. *)
Ltac pipeline_step w c :=
  first
    [ split_on (fault w (ProbeTool "pdflatex"))
    | split_on (pdflatex_found w)
    | split_on (fault w (ProbeTool "convert"))
    | split_on (convert_found w)
    | split_on (fault w CreateWorkspace)
    | split_on (fault w (WriteSource c))
    | split_on (fault w RunCompiler)
    | split_on (returncode (pdflatex w c) =? 0)%Z
    | split_on (log_file (pdflatex w c))
    | split_on (fault w ReadLog)
    | split_on (pdf_file_exists (pdflatex w c))
    | split_on (fault w RunConverter)
    | split_on (convert_returncode (convert w c) =? 0)%Z
    | split_on (png_file (convert w c))
    | split_on (fault w ReadImage)
    | split_on (fault w RemoveWorkspace) ].

(** The outcome of a run, path by path. *)
Ltac pipeline_paths w tikz_code :=
  unfold compile_tikz_to_image, probe, on_compile_error,
    with_temporary_directory, bind, act, ret, raise; simpl;
  repeat pipeline_step w (normalize tikz_code);
  rewrite ?Z.eqb_eq, ?Z.eqb_neq in *.

(** The single facts of an [unfaulted] hypothesis. *)
Ltac use_unfaulted :=
  repeat match goal with
         | H : unfaulted _ _ |- _ =>
             unfold unfaulted, compile_steps in H; simpl in H
         | H : Forall _ (_ :: _) |- _ => apply Forall_cons in H as [? H]
         | H : Forall _ [] |- _ => clear H
         end.

(** No event of the list is [e]. *)
Ltac not_in_trace :=
  repeat (apply not_elem_of_cons; split; [discriminate |]);
  apply not_elem_of_nil.

(** The event [e] is in the list. *)
Ltac in_trace :=
  repeat first [apply list_elem_of_here | apply list_elem_of_further].

Ltac absurd_in_trace H :=
  repeat (apply elem_of_cons in H as [H | H]; [discriminate |]);
  now apply elem_of_nil in H.

(** A non-zero exit status of the compiler, reported by
    [CalledProcessError]: the [except] block runs and raises, and the
    block's exit removes the workspace. *)
Lemma compile_nonzero_exit (w : World) (tikz_code : string) :
  let run := pdflatex w (normalize tikz_code) in
  pdflatex_found w = true -> convert_found w = true ->
  unfaulted w (compile_steps (normalize tikz_code)
               ++ match log_file run with Some _ => [ReadLog] | None => [] end
               ++ [RemoveWorkspace]) ->
  returncode run <> 0%Z ->
  compile_tikz_to_image w tikz_code []
  = (Raised (RuntimeError
               ("LaTeX compilation failed:"
                +:+ String nl (String nl (compile_error_details run)))),
     compile_steps (normalize tikz_code)
     ++ match log_file run with Some _ => [ReadLog] | None => [] end
     ++ [RemoveWorkspace]).
Proof.
  intros run Hp Hc Hu Hrc. subst run. unfold compile_error_details.
  destruct (log_file (pdflatex w (normalize tikz_code))) eqn:Hlog;
    use_unfaulted; pipeline_paths w tikz_code;
    first [congruence | reflexivity].
Qed.

(** With a non-zero exit status the converter is never run and the run
    never returns, whatever else happens. *)
Lemma nonzero_exit_no_converter (w : World) (tikz_code : string) :
  returncode (pdflatex w (normalize tikz_code)) <> 0%Z ->
  (RunConverter ∉ (compile_tikz_to_image w tikz_code []).2)
  /\ exists e, (compile_tikz_to_image w tikz_code []).1 = Raised e.
Proof.
  intros Hrc. pipeline_paths w tikz_code; try congruence;
    (split; [not_in_trace | eauto]).
Qed.

(** C1 (amended) — With a non-zero exit status of the compiler the run
    never goes on to the converter and always ends in an error, whether or
    not the page description exists.  When both tools were found and no
    action raised an exception of its own (so that the captured output
    decoded and [subprocess.run] raised [CalledProcessError]), the error is
    "LaTeX compilation failed". *)
Theorem nonzero_exit_always_fails (w : World) (tikz_code : string) :
  returncode (pdflatex w (normalize tikz_code)) <> 0%Z ->
  (RunConverter ∉ (compile_tikz_to_image w tikz_code []).2)
  /\ (exists e, (compile_tikz_to_image w tikz_code []).1 = Raised e)
  /\ (pdflatex_found w = true -> convert_found w = true ->
      unfaulted w (compile_steps (normalize tikz_code)
                   ++ [ReadLog; RemoveWorkspace]) ->
      exists error_details : string,
        (compile_tikz_to_image w tikz_code []).1
        = Raised (RuntimeError
                    ("LaTeX compilation failed:"
                     +:+ String nl (String nl error_details)))).
Proof.
  intros Hrc.
  destruct (nonzero_exit_no_converter w tikz_code Hrc) as [Hno Hraised].
  split; [exact Hno |]. split; [exact Hraised |].
  intros Hp Hc Hu. eexists.
  rewrite (compile_nonzero_exit w tikz_code Hp Hc); [reflexivity | | exact Hrc].
  unfold unfaulted in *. apply Forall_app in Hu as [Hu1 Hu2].
  apply Forall_app. split; [exact Hu1 |].
  apply Forall_cons in Hu2 as [Hlog Hu2].
  destruct (log_file _); [now constructor | exact Hu2].
Qed.

Lemma nonzero_exit_always_fails_witness :
  (RunConverter
   ∉ (compile_tikz_to_image world_exit1_with_pdf "\draw (0,0) -- (1,1);" []).2)
  /\ (exists e,
        (compile_tikz_to_image world_exit1_with_pdf "\draw (0,0) -- (1,1);" []).1
        = Raised e)
  /\ (pdflatex_found world_exit1_with_pdf = true ->
      convert_found world_exit1_with_pdf = true ->
      unfaulted world_exit1_with_pdf
        (compile_steps (normalize "\draw (0,0) -- (1,1);")
         ++ [ReadLog; RemoveWorkspace]) ->
      exists error_details : string,
        (compile_tikz_to_image world_exit1_with_pdf
           "\draw (0,0) -- (1,1);" []).1
        = Raised (RuntimeError
                    ("LaTeX compilation failed:"
                     +:+ String nl (String nl error_details)))).
Proof.
  apply (nonzero_exit_always_fails world_exit1_with_pdf "\draw (0,0) -- (1,1);").
  discriminate.
Defined.

(** C1 as stated fails: with exit status 1, decodable output and the page
    description present, the run ends in "LaTeX compilation failed" and
    never reaches the converter. *)
Lemma nonzero_exit_with_artifact_counterexample :
  (returncode (pdflatex world_exit1_with_pdf
                 (normalize "\draw (0,0) -- (1,1);")) = 1%Z
   /\ pdf_file_exists (pdflatex world_exit1_with_pdf
                         (normalize "\draw (0,0) -- (1,1);")) = true
   /\ compile_tikz_to_image world_exit1_with_pdf "\draw (0,0) -- (1,1);" []
      = (Raised (RuntimeError
                   ("LaTeX compilation failed:" +:+ NL +:+ NL
                    +:+ "LaTeX compilation failed - no log file generated")),
         [ProbeTool "pdflatex"; ProbeTool "convert"; CreateWorkspace;
          WriteSource (normalize "\draw (0,0) -- (1,1);"); RunCompiler;
          RemoveWorkspace]))
  /\ ~ (forall (w : World) (tikz_code : string),
          pdflatex_found w = true -> convert_found w = true ->
          returncode (pdflatex w (normalize tikz_code)) <> 0%Z ->
          pdf_file_exists (pdflatex w (normalize tikz_code)) = true ->
          RunConverter ∈ (compile_tikz_to_image w tikz_code []).2).
Proof.
  split; [repeat split |].
  intros H.
  specialize (H world_exit1_with_pdf "\draw (0,0) -- (1,1);"
                eq_refl eq_refl).
  assert (RunConverter ∈ [ProbeTool "pdflatex"; ProbeTool "convert";
            CreateWorkspace; WriteSource (normalize "\draw (0,0) -- (1,1);");
            RunCompiler; RemoveWorkspace]) as Hin
    by (apply H; [discriminate | reflexivity]).
  absurd_in_trace Hin.
Qed.









(** ** The request handler *)

(** C8 — When the [tikz_code] argument is missing (no arguments at all, or
    no such key), [None], the empty string or not a string, the handler
    answers "Error: Valid TikZ code is required" at once: the pipeline is
    not entered, so no tool is probed and no workspace is created. *)
Theorem invalid_markup_rejected (w : World)
  (arguments : option (gmap string PyVal)) :
  let markup := default ∅ arguments !! "tikz_code" in
  markup = None \/ markup = Some PyNone \/ markup = Some (PyStr "")
  \/ (exists v, markup = Some v /\ isinstance_str v = false) ->
  handle_call_tool w "render_tikz" arguments
  = ([TextContent "Error: Valid TikZ code is required"], []).
Proof.
  intros markup H. unfold handle_call_tool, dict_get. simpl. fold markup.
  destruct H as [-> | [-> | [-> | (v & -> & Hv)]]]; try reflexivity.
  simpl. rewrite Hv, orb_true_r. reflexivity.
Qed.

Lemma invalid_markup_rejected_witness :
  handle_call_tool world_exit1_with_pdf "render_tikz"
    (Some {[ "tikz_code" := PyInt 42 ]})
  = ([TextContent "Error: Valid TikZ code is required"], []).
Proof.
  apply (invalid_markup_rejected world_exit1_with_pdf
           (Some {[ "tikz_code" := PyInt 42 ]})).
  right. right. right. exists (PyInt 42). split; reflexivity.
Defined.

Example render_empty_string (w : World) :
  handle_call_tool w "render_tikz" (Some {[ "tikz_code" := PyStr "" ]})
  = ([TextContent "Error: Valid TikZ code is required"], []).
Proof. reflexivity. Qed.

Example render_none (w : World) :
  handle_call_tool w "render_tikz" None
  = ([TextContent "Error: Valid TikZ code is required"], []).
Proof. reflexivity. Qed.

(** * Further properties *)

(** ** Invariants of the scan *)

(** A property of the state that every iteration keeps holds of the loop's
    result. *)
Lemma scan_loop_invariant (P : ScanState -> Prop) (lines : list string) :
  (forall i line st, line ∈ lines -> P st ->
     P (flow_state (scan_line lines i line st))) ->
  forall todo : list string, (forall l, l ∈ todo -> l ∈ lines) ->
  forall (i : nat) (st : ScanState), P st -> P (scan_loop lines i todo st).
Proof.
  intros Hstep. induction todo as [|line rest IH]; intros Hsub i st Hst.
  - exact Hst.
  - simpl.
    assert (line ∈ lines) as Hline by (apply Hsub, elem_of_cons; now left).
    pose proof (Hstep i line st Hline Hst) as Hnext.
    destruct (scan_line lines i line st) as [st' | st']; simpl in Hnext.
    + apply IH; [| assumption].
      intros l Hl. apply Hsub, elem_of_cons. now right.
    + exact Hnext.
Qed.

Lemma scan_invariant (P : ScanState -> Prop) (lines : list string) :
  (forall i line st, line ∈ lines -> P st ->
     P (flow_state (scan_line lines i line st))) ->
  P scan_init -> P (scan lines).
Proof. intros Hstep H0. unfold scan. apply scan_loop_invariant; auto. Qed.

Lemma is_trigger_not_blank (line : string) :
  is_trigger line = true -> strip line <> "".
Proof.
  intros Ht Hb. rewrite (is_trigger_blank line Hb) in Ht. discriminate.
Qed.

Lemma scan_line_nonempty_entries (lines : list string) (i : nat)
  (line : string) (st : ScanState) :
  Forall (fun x => x <> "") (error_lines st) ->
  Forall (fun x => x <> "") (context_lines st) ->
  Forall (fun x => x <> "") (error_lines (flow_state (scan_line lines i line st)))
  /\ Forall (fun x => x <> "")
       (context_lines (flow_state (scan_line lines i line st))).
Proof.
  intros He Hc. unfold scan_line. destruct (is_trigger line) eqn:Ht; simpl.
  - split.
    + apply Forall_app. split; [assumption |].
      constructor; [now apply is_trigger_not_blank | constructor].
    + destruct (backfill_spec lines i (context_lines st))
        as (added & -> & _ & _ & Hin).
      apply Forall_app. split; [assumption |].
      apply Forall_forall. intros x Hx. now apply Hin in Hx.
  - destruct (error_section st); [| now split].
    destruct (truthy (strip line)) eqn:Hl; simpl.
    + split; [| assumption].
      destruct (collect_related_spec line (strip line) (error_lines st))
        as [-> | [_ ->]]; [| assumption].
      apply Forall_app. split; [assumption |].
      constructor; [now apply truthy_spec | constructor].
    + destruct (0 <? length (error_lines st)); now split.
Qed.

Lemma join_empty (parts : list string) :
  Forall (fun x => x <> "") parts ->
  join (String nl "") parts = "" -> parts = [].
Proof.
  intros Hall. destruct parts as [|x rest]; [reflexivity |].
  inversion Hall as [|? ? Hx _]; subst.
  destruct rest; simpl; [congruence |].
  destruct x; [contradiction | discriminate].
Qed.

Lemma report_entries_nonempty (lines : list string) :
  Forall (fun x => x <> "") (report_lines lines).
Proof.
  unfold report_lines.
  assert (Forall (fun x => x <> "") (error_lines (scan lines))
          /\ Forall (fun x => x <> "") (context_lines (scan lines))) as [He Hc].
  { apply (scan_invariant
             (fun st => Forall (fun x => x <> "") (error_lines st)
                        /\ Forall (fun x => x <> "") (context_lines st))).
    - intros i line st _ [He Hc]. now apply scan_line_nonempty_entries.
    - split; constructor. }
  destruct (_ || _).
  - apply Forall_take, Forall_app. split; [assumption |].
    apply Forall_app. split; [| assumption].
    constructor; [discriminate | constructor].
  - unfold last_n. apply Forall_drop. apply Forall_forall. intros x Hx.
    apply list_elem_of_In, filter_In in Hx as [_ Hx].
    intros ->. discriminate.
Qed.

Lemma diagnostic_report_empty (log_content : string) :
  diagnostic_report log_content = ""
  <-> report_lines (split nl log_content) = [].
Proof.
  unfold diagnostic_report. split.
  - apply join_empty, report_entries_nonempty.
  - intros ->. reflexivity.
Qed.

(** X2 — Every line of every report is non-empty, so the report text is empty
    only when the report has no line at all. *)
Theorem report_lines_nonempty (log_content : string) :
  Forall (fun x => x <> "") (report_lines (split nl log_content))
  /\ (diagnostic_report log_content = ""
      <-> report_lines (split nl log_content) = []).
Proof.
  split; [apply report_entries_nonempty | apply diagnostic_report_empty].
Qed.

(** X3 — [context_lines] never holds a text twice. *)
Theorem context_lines_no_duplicates (lines : list string) :
  NoDup (context_lines (scan lines)).
Proof.
  apply (scan_invariant (fun st => NoDup (context_lines st))).
  - intros i line st _ Hnd. unfold scan_line.
    destruct (is_trigger line); simpl.
    + destruct (backfill_spec lines i (context_lines st))
        as (added & -> & _ & Hadd & Hin).
      apply NoDup_app. split; [assumption |]. split; [| assumption].
      intros x Hx Hx'. now apply Hin in Hx'.
    + destruct (error_section st); [| assumption].
      destruct (truthy (strip line)); simpl; [assumption |].
      now destruct (0 <? length (error_lines st)).
  - apply NoDup_nil_2.
Qed.

Lemma scan_line_from_log (lines : list string) (i : nat) (line : string)
  (st : ScanState) :
  line ∈ lines ->
  (forall x, x ∈ error_lines st ++ context_lines st ->
     exists l, l ∈ lines /\ strip l = x) ->
  forall x,
    x ∈ error_lines (flow_state (scan_line lines i line st))
        ++ context_lines (flow_state (scan_line lines i line st)) ->
    exists l, l ∈ lines /\ strip l = x.
Proof.
  intros Hline Hst x. unfold scan_line.
  destruct (is_trigger line); simpl.
  - destruct (backfill_spec lines i (context_lines st))
      as (added & -> & _ & _ & Hin).
    rewrite !elem_of_app, list_elem_of_singleton.
    intros [[H | ->] | [H | H]]; eauto.
    + apply Hst, elem_of_app. now left.
    + apply Hst, elem_of_app. now right.
    + apply Hin in H as (_ & _ & j & l & _ & Hl & E).
      exists l. split; [| assumption]. apply list_elem_of_lookup. eauto.
  - destruct (error_section st); [| apply Hst].
    destruct (truthy (strip line)); simpl.
    + destruct (collect_related_spec line (strip line) (error_lines st))
        as [-> | [_ ->]]; [| apply Hst].
      rewrite !elem_of_app, list_elem_of_singleton.
      intros [[H | ->] | H]; eauto.
      * apply Hst, elem_of_app. now left.
      * apply Hst, elem_of_app. now right.
    + destruct (0 <? length (error_lines st)); apply Hst.
Qed.

(** X4 — The report invents no text: each of its lines is the separator, a line
    of the log, or a line of the log trimmed. *)
Theorem report_lines_from_log (lines : list string) (x : string) :
  x ∈ report_lines lines ->
  x = "--- Error Details ---"
  \/ exists l, l ∈ lines /\ (x = l \/ x = strip l).
Proof.
  unfold report_lines.
  assert (forall y, y ∈ error_lines (scan lines) ++ context_lines (scan lines)
                    -> exists l, l ∈ lines /\ strip l = y) as Hscan.
  { apply (scan_invariant
             (fun st => forall y, y ∈ error_lines st ++ context_lines st ->
                                  exists l, l ∈ lines /\ strip l = y)).
    - intros i line st Hline Hst. now apply scan_line_from_log.
    - intros y Hy. now apply elem_of_nil in Hy. }
  destruct (_ || _).
  - intros Hx. apply subseteq_take in Hx.
    rewrite !elem_of_app, list_elem_of_singleton in Hx.
    destruct Hx as [Hx | [-> | Hx]]; [| now left |].
    + right. destruct (Hscan x) as (l & Hl & E);
        [apply elem_of_app; now right | eauto].
    + right. destruct (Hscan x) as (l & Hl & E);
        [apply elem_of_app; now left | eauto].
  - intros Hx. unfold last_n in Hx. apply subseteq_drop in Hx.
    apply list_elem_of_In, filter_In in Hx as [Hx _].
    apply list_elem_of_In, subseteq_drop in Hx. right. eauto.
Qed.

Lemma report_lines_from_log_witness :
  "l.12 \foo" = "--- Error Details ---"
  \/ exists l, l ∈ split nl sample_log
               /\ ("l.12 \foo" = l \/ "l.12 \foo" = strip l).
Proof.
  apply (report_lines_from_log (split nl sample_log) "l.12 \foo").
  vm_compute. do 4 apply list_elem_of_further. apply list_elem_of_here.
Defined.

(** The scan only ever appends to its two accumulators. *)
Lemma scan_line_extends (lines : list string) (i : nat) (line : string)
  (st : ScanState) :
  exists e c : list string,
    error_lines (flow_state (scan_line lines i line st)) = error_lines st ++ e
    /\ context_lines (flow_state (scan_line lines i line st))
       = context_lines st ++ c.
Proof.
  unfold scan_line. destruct (is_trigger line); simpl.
  - destruct (backfill_spec lines i (context_lines st)) as (added & -> & _).
    eauto.
  - destruct (error_section st); [| exists [], []; now rewrite !app_nil_r].
    destruct (truthy (strip line)); simpl.
    + destruct (collect_related_spec line (strip line) (error_lines st))
        as [-> | [_ ->]].
      * exists [strip line], []. now rewrite app_nil_r.
      * exists [], []. now rewrite !app_nil_r.
    + destruct (0 <? length (error_lines st)); exists [], [];
        now rewrite !app_nil_r.
Qed.





(** The loop is only left by [break] with an error line in hand, and the
    iteration that does so changes nothing. *)
Lemma scan_line_break (lines : list string) (i : nat) (line : string)
  (st st' : ScanState) :
  scan_line lines i line st = Break st' ->
  st' = st /\ error_lines st <> [] /\ strip line = "".
Proof.
  unfold scan_line. destruct (is_trigger line); [discriminate |].
  destruct (error_section st); [| discriminate].
  destruct (truthy (strip line)) eqn:Hl; [discriminate |].
  destruct (error_lines st) eqn:He; simpl; [discriminate |].
  intros [= <-]. split; [reflexivity |]. split; [discriminate |].
  destruct (strip line); [reflexivity | discriminate].
Qed.

Lemma scan_loop_collects (lines todo : list string) :
  forall (i : nat) (st : ScanState),
    error_lines st <> [] \/ (exists line, line ∈ todo /\ is_trigger line = true) ->
    error_lines (scan_loop lines i todo st) <> [].
Proof.
  induction todo as [|line rest IH]; intros i st H; simpl.
  - destruct H as [H | (l & Hl & _)]; [assumption |].
    now apply elem_of_nil in Hl.
  - destruct (scan_line lines i line st) as [st' | st'] eqn:Hstep.
    + apply IH.
      destruct (scan_line_extends lines i line st) as (e & c & He & _).
      rewrite Hstep in He. simpl in He.
      destruct H as [H | (l & Hl & Ht)].
      * left. rewrite He. now destruct (error_lines st).
      * apply elem_of_cons in Hl as [-> | Hl]; [| right; eauto].
        left. unfold scan_line in Hstep. rewrite Ht in Hstep.
        injection Hstep as <-. simpl. now destruct (error_lines st).
    + apply scan_line_break in Hstep as (-> & Hne & _). exact Hne.
Qed.

Lemma last_n_nil {A} (n : nat) (l : list A) :
  0 < n -> last_n n l = [] -> l = [].
Proof.
  unfold last_n. intros Hn H. apply (f_equal length) in H.
  rewrite length_drop in H. simpl in H.
  destruct l; [reflexivity | simpl in H; lia].
Qed.

Lemma filter_nil_iff {A} (f : A -> bool) (l : list A) :
  List.filter f l = [] <-> forall x, x ∈ l -> f x = false.
Proof.
  induction l as [|a l IH]; simpl.
  - split; [intros _ x Hx; now apply elem_of_nil in Hx | reflexivity].
  - destruct (f a) eqn:Ha.
    + split; [discriminate |]. intros H.
      rewrite (H a) in Ha by (apply elem_of_cons; now left). discriminate.
    + rewrite IH. split.
      * intros H x Hx. apply elem_of_cons in Hx as [-> | Hx]; auto.
      * intros H x Hx. apply H, elem_of_cons. now right.
Qed.

(** X6 — The report is empty, and the failure reason then taken from standard
    error, exactly when no line of the log holds a keyword and the last 50
    lines are all blank.  Otherwise the failure reason is the report. *)
Theorem empty_report_iff (log_content : string) :
  let lines := split nl log_content in
  (diagnostic_report log_content = ""
   <-> (forall line, line ∈ lines -> is_trigger line = false)
       /\ (forall line, line ∈ last_n 50 lines -> strip line = ""))
  /\ (diagnostic_report log_content = "" ->
      forall stderr,
        error_details_of_log log_content stderr
        = or_else stderr "LaTeX compilation failed with unknown error")
  /\ (diagnostic_report log_content <> "" ->
      forall stderr,
        error_details_of_log log_content stderr
        = diagnostic_report log_content).
Proof.
  intros lines. split; [| split].
  - rewrite diagnostic_report_empty. fold lines. split.
    + intros Hrep.
      assert (error_lines (scan lines) = [] /\ context_lines (scan lines) = []
              /\ last_n 15 (List.filter (fun line => truthy (strip line))
                              (last_n 50 lines)) = []) as (He & Hc & Hf).
      { unfold report_lines in Hrep.
        destruct (context_lines (scan lines)) as [|x ctx];
          destruct (error_lines (scan lines)) as [|y errs];
          simpl in Hrep; try discriminate. auto. }
      split.
      * intros line Hline. destruct (is_trigger line) eqn:Ht; [| reflexivity].
        exfalso. apply (scan_loop_collects lines lines 0 scan_init); [| exact He].
        right. eauto.
      * intros line Hline. apply last_n_nil in Hf; [| lia].
        pose proof (proj1 (filter_nil_iff _ _) Hf line Hline) as Hl.
        simpl in Hl. destruct (strip line); [reflexivity | discriminate].
    + intros [Hno Hblank].
      assert (scan lines = scan_init) as Hscan
        by (apply scan_loop_idle; [assumption | reflexivity]).
      unfold report_lines. rewrite Hscan. simpl.
      assert (List.filter (fun line => truthy (strip line)) (last_n 50 lines)
              = []) as ->; [| reflexivity].
      apply filter_nil_iff. intros x Hx. now rewrite (Hblank x Hx).
  - intros H stderr. unfold error_details_of_log. now rewrite H.
  - intros H stderr. unfold error_details_of_log.
    destruct (diagnostic_report log_content); [contradiction | reflexivity].
Qed.

(** X7 — Once 20 context lines have been collected the report is context only:
    the separator and every error line fall to the cut at 20. *)
Theorem crowded_context_hides_errors (lines : list string) :
  20 <= length (context_lines (scan lines)) ->
  report_lines lines = take 20 (context_lines (scan lines)).
Proof.
  intros H. unfold report_lines.
  destruct (context_lines (scan lines)) as [|x ctx] eqn:E;
    [simpl in H; lia |].
  simpl (list_truthy _ || _). cbv iota. now apply take_app_le.
Qed.

Lemma crowded_context_hides_errors_witness :
  report_lines crowded_lines = take 20 (context_lines (scan crowded_lines)).
Proof.
  apply (crowded_context_hides_errors crowded_lines). vm_compute. lia.
Defined.

(** X8 — Splitting the report text at line feeds gives back the report's lines:
    no entry of the report spans two lines. *)
Theorem diagnostic_report_lines (log_content : string) :
  split nl (diagnostic_report log_content)
  = match report_lines (split nl log_content) with
    | [] => [""]
    | x :: rest => x :: rest
    end.
Proof.
  unfold diagnostic_report.
  pose proof (report_lines_one_line _ (split_one_line log_content)) as H.
  destruct (report_lines (split nl log_content)) as [|x rest]; [reflexivity |].
  apply split_join; [discriminate | assumption].
Qed.

(** ** Every path through the pipeline *)

(** X10 — A run returns an image exactly when both tools are found, the
    compiler exits with 0 and leaves the page description, the converter
    exits with 0 and leaves the image, and no action raised an exception of
    its own; the value is then the encoded image. *)
Theorem success_iff (w : World) (tikz_code image : string) :
  (compile_tikz_to_image w tikz_code []).1 = Returned image
  <-> pdflatex_found w = true /\ convert_found w = true
      /\ returncode (pdflatex w (normalize tikz_code)) = 0%Z
      /\ pdf_file_exists (pdflatex w (normalize tikz_code)) = true
      /\ convert_returncode (convert w (normalize tikz_code)) = 0%Z
      /\ (exists bytes, png_file (convert w (normalize tikz_code)) = Some bytes
                        /\ image = b64encode w bytes)
      /\ unfaulted w (compile_steps (normalize tikz_code)
                      ++ [RunConverter; ReadImage; RemoveWorkspace]).
Proof.
  split.
  - pipeline_paths w tikz_code; intros H; try discriminate H.
    injection H as <-. unfold unfaulted, compile_steps.
    repeat split; try assumption; eauto.
    repeat constructor; assumption.
  - intros (H1 & H2 & H3 & H4 & H5 & (b & H6 & ->) & Hu). use_unfaulted.
    pipeline_paths w tikz_code; congruence.
Qed.


(** X12 — Which actions a run takes.  The converter is called exactly when
    both tools were found, nothing up to the compiler's call raised an
    exception of its own, and the compiler exited with 0 and left the page
    description; the log is read exactly when instead the compiler exited
    with another status and left a log; the image is read exactly when the
    converter, too, was called without such an exception, exited with 0 and
    left an image. *)
Theorem actions_iff (w : World) (tikz_code : string) :
  let tr := (compile_tikz_to_image w tikz_code []).2 in
  let run := pdflatex w (normalize tikz_code) in
  let conv := convert w (normalize tikz_code) in
  let compiled :=
    pdflatex_found w = true /\ convert_found w = true
    /\ unfaulted w (compile_steps (normalize tikz_code)) in
  (RunConverter ∈ tr
   <-> compiled /\ returncode run = 0%Z /\ pdf_file_exists run = true)
  /\ (ReadLog ∈ tr
      <-> compiled /\ returncode run <> 0%Z /\ log_file run <> None)
  /\ (ReadImage ∈ tr
      <-> compiled /\ returncode run = 0%Z /\ pdf_file_exists run = true
          /\ fault w RunConverter = None
          /\ convert_returncode conv = 0%Z /\ png_file conv <> None).
Proof.
  intros tr run conv compiled. subst tr run conv compiled.
  unfold unfaulted, compile_steps.
  pipeline_paths w tikz_code;
    (split; [| split]);
    (split; intros H;
     [ first [ solve [absurd_in_trace H]
             | solve [repeat split; first [assumption | congruence]
                      || (repeat constructor; assumption)] ]
     | first [ solve [in_trace]
             | solve [exfalso; destruct H as ((H1 & H2 & Hu) & H');
                      use_unfaulted; decompose [and] H'; congruence] ] ]).
Qed.


(** X14 — A non-zero exit status of the converter fails the run with the
    converter's error text, even when the image file is there; the image is
    not read. *)
Theorem converter_nonzero_exit_fails (w : World) (tikz_code : string) :
  pdflatex_found w = true -> convert_found w = true ->
  unfaulted w (compile_steps (normalize tikz_code)
               ++ [RunConverter; RemoveWorkspace]) ->
  returncode (pdflatex w (normalize tikz_code)) = 0%Z ->
  pdf_file_exists (pdflatex w (normalize tikz_code)) = true ->
  convert_returncode (convert w (normalize tikz_code)) <> 0%Z ->
  compile_tikz_to_image w tikz_code []
  = (Raised (RuntimeError
               ("Image conversion failed: "
                +:+ convert_exception (convert w (normalize tikz_code)))),
     [ProbeTool "pdflatex"; ProbeTool "convert"; CreateWorkspace;
      WriteSource (normalize tikz_code); RunCompiler; RunConverter;
      RemoveWorkspace]).
Proof.
  intros Hp Hc Hu Hrc Hpdf Hconv. use_unfaulted.
  pipeline_paths w tikz_code; first [congruence | reflexivity].
Qed.

Lemma converter_nonzero_exit_fails_witness :
  compile_tikz_to_image world_convert_fails "\draw (0,0) -- (1,1);" []
  = (Raised (RuntimeError
               ("Image conversion failed: "
                +:+ convert_exception
                      (convert world_convert_fails
                         (normalize "\draw (0,0) -- (1,1);")))),
     [ProbeTool "pdflatex"; ProbeTool "convert"; CreateWorkspace;
      WriteSource (normalize "\draw (0,0) -- (1,1);"); RunCompiler;
      RunConverter; RemoveWorkspace]).
Proof.
  apply (converter_nonzero_exit_fails world_convert_fails
           "\draw (0,0) -- (1,1);");
    [reflexivity | reflexivity | repeat constructor | reflexivity
    | reflexivity | discriminate].
Defined.

Lemma or_else_nonempty (a b : string) : b <> "" -> or_else a b <> "".
Proof. intros Hb. destruct a; [exact Hb | discriminate]. Qed.

Lemma error_details_of_log_nonempty (log_content stderr : string) :
  error_details_of_log log_content stderr <> "".
Proof.
  unfold error_details_of_log.
  destruct (diagnostic_report log_content); simpl.
  - now apply or_else_nonempty.
  - discriminate.
Qed.

(** X15 — Every [RuntimeError] of a run is one of six: a missing compiler,
    a missing converter, a failed compile with a non-empty reason, no page
    description, a failed conversion, no image. *)
Theorem failure_taxonomy (w : World) (tikz_code msg : string) :
  (compile_tikz_to_image w tikz_code []).1 = Raised (RuntimeError msg) ->
  msg = "pdflatex not found. Please install TeX Live or MiKTeX."
  \/ msg = "ImageMagick convert not found. Please install ImageMagick."
  \/ (exists error_details,
        error_details <> ""
        /\ msg = "LaTeX compilation failed:"
                 +:+ String nl (String nl error_details))
  \/ msg = "PDF file was not generated"
  \/ msg = "Image conversion failed: "
           +:+ convert_exception (convert w (normalize tikz_code))
  \/ msg = "PNG file was not generated".
Proof.
  pipeline_paths w tikz_code; intros H; try discriminate H;
    injection H as <-; auto 7;
    right; right; left; eexists; (split; [| reflexivity]);
    first [apply error_details_of_log_nonempty | now apply or_else_nonempty].
Qed.

Lemma failure_taxonomy_witness :
  "PDF file was not generated"
  = "pdflatex not found. Please install TeX Live or MiKTeX."
  \/ "PDF file was not generated"
     = "ImageMagick convert not found. Please install ImageMagick."
  \/ (exists error_details,
        error_details <> ""
        /\ "PDF file was not generated"
           = "LaTeX compilation failed:"
             +:+ String nl (String nl error_details))
  \/ "PDF file was not generated" = "PDF file was not generated"
  \/ "PDF file was not generated"
     = "Image conversion failed: "
       +:+ convert_exception
             (convert world_exit0_without_pdf
                (normalize "\draw (0,0) -- (1,1);"))
  \/ "PDF file was not generated" = "PNG file was not generated".
Proof.
  apply (failure_taxonomy world_exit0_without_pdf "\draw (0,0) -- (1,1);"
           "PDF file was not generated").
  reflexivity.
Defined.

Lemma append_empty_r (s : string) : s +:+ "" = s.
Proof. induction s as [|c s IH]; simpl; [reflexivity | now rewrite IH]. Qed.

Lemma normalize_contains (tikz_code : string) :
  contains tikz_code (normalize tikz_code) = true
  /\ contains marker (normalize tikz_code) = true.
Proof.
  unfold normalize. destruct (contains marker tikz_code) eqn:E.
  - split; [| exact E]. apply contains_spec. exists "", "".
    now rewrite append_empty_r.
  - split; apply contains_spec.
    + eauto.
    + exists "". eexists. cbv. reflexivity.
Qed.

(** X16 — The only document ever written for the compiler is the normalized
    markup; it holds the caller's markup verbatim and it holds
    [\documentclass], whichever branch the normalizer took. *)
Theorem written_document (w : World) (tikz_code latex_content : string) :
  WriteSource latex_content ∈ (compile_tikz_to_image w tikz_code []).2 ->
  latex_content = normalize tikz_code
  /\ contains tikz_code latex_content = true
  /\ contains "\documentclass" latex_content = true.
Proof.
  intros H.
  assert (latex_content = normalize tikz_code) as ->.
  { revert H. pipeline_paths w tikz_code; intros H;
      repeat (apply elem_of_cons in H as [H | H];
              [try discriminate H; try (injection H as <-; reflexivity) |]);
      now apply elem_of_nil in H. }
  split; [reflexivity |]. apply normalize_contains.
Qed.

Lemma written_document_witness :
  normalize "\draw (0,0) -- (1,1);" = normalize "\draw (0,0) -- (1,1);"
  /\ contains "\draw (0,0) -- (1,1);" (normalize "\draw (0,0) -- (1,1);") = true
  /\ contains "\documentclass" (normalize "\draw (0,0) -- (1,1);") = true.
Proof.
  apply (written_document world_success "\draw (0,0) -- (1,1);"
           (normalize "\draw (0,0) -- (1,1);")).
  vm_compute. in_trace.
Defined.

(** ** The request handler and the tool listing *)

(** What the handler does with a non-empty string. *)
Lemma handle_valid_markup (w : World) (arguments : option (gmap string PyVal))
  (code : string) :
  default ∅ arguments !! "tikz_code" = Some (PyStr code) -> code <> "" ->
  handle_call_tool w "render_tikz" arguments
  = match compile_tikz_to_image w code [] with
    | (Returned image_base64, tr) =>
        ([TextContent "TikZ diagram rendered successfully";
          ImageContent image_base64 "image/png"], tr)
    | (Raised e, tr) =>
        ([TextContent ("Compilation Error: " +:+ exn_text e)], tr)
    end.
Proof.
  intros Hget Hne. unfold handle_call_tool, dict_get. simpl. rewrite Hget.
  destruct code; [contradiction | reflexivity].
Qed.

(** What the handler does with anything else. *)
Lemma handle_invalid_markup (w : World)
  (arguments : option (gmap string PyVal)) :
  (forall code, default ∅ arguments !! "tikz_code" = Some (PyStr code) ->
                code = "") ->
  handle_call_tool w "render_tikz" arguments
  = ([TextContent "Error: Valid TikZ code is required"], []).
Proof.
  intros H. unfold handle_call_tool, dict_get. simpl.
  destruct (default ∅ arguments !! "tikz_code") as [v|] eqn:E;
    [| reflexivity].
  destruct v as [| b | n | x | code | items | items]; simpl;
    rewrite ?orb_true_r; try reflexivity.
  now rewrite (H code eq_refl).
Qed.

Lemma handle_other_tool (w : World) (name : string)
  (arguments : option (gmap string PyVal)) :
  name <> "render_tikz" ->
  handle_call_tool w name arguments
  = ([TextContent ("Unknown tool: " +:+ name
                   +:+ ". Available tools: render_tikz")], []).
Proof.
  intros H. unfold handle_call_tool.
  destruct (String.eqb_spec name "render_tikz"); [contradiction | reflexivity].
Qed.

Lemma markup_cases (arguments : option (gmap string PyVal)) :
  (exists code, default ∅ arguments !! "tikz_code" = Some (PyStr code)
                /\ code <> "")
  \/ (forall code, default ∅ arguments !! "tikz_code" = Some (PyStr code) ->
                   code = "").
Proof.
  destruct (default ∅ arguments !! "tikz_code") as [v|]; [| right; discriminate].
  destruct v as [| | | | s | |]; try (right; discriminate).
  destruct s as [|c s].
  - right. now intros code [= <-].
  - left. eexists. split; [reflexivity | discriminate].
Qed.

(** X17 — The handler always answers, with a text first; an image follows only
    when the tool is [render_tikz], the markup a non-empty string and the
    run returned, and it is then the run's value, typed [image/png]. *)
Theorem handler_response_shape (w : World) (name : string)
  (arguments : option (gmap string PyVal)) :
  let resp := (handle_call_tool w name arguments).1 in
  (exists text, resp = [TextContent text])
  \/ (exists code data,
        name = "render_tikz"
        /\ default ∅ arguments !! "tikz_code" = Some (PyStr code)
        /\ code <> ""
        /\ (compile_tikz_to_image w code []).1 = Returned data
        /\ resp = [TextContent "TikZ diagram rendered successfully";
                   ImageContent data "image/png"]).
Proof.
  intros resp. subst resp.
  destruct (String.eqb_spec name "render_tikz") as [-> | Hname].
  - destruct (markup_cases arguments) as [(code & Hget & Hne) | Hbad].
    + rewrite (handle_valid_markup w arguments code Hget Hne).
      destruct (compile_tikz_to_image w code []) as [[data | msg] tr] eqn:E.
      * right. exists code, data. rewrite E. auto.
      * left. simpl. eauto.
    + rewrite (handle_invalid_markup w arguments Hbad). left. simpl. eauto.
  - rewrite (handle_other_tool w name arguments Hname). left. simpl. eauto.
Qed.

Lemma pipeline_trace_starts (w : World) (code : string) :
  exists tr, (compile_tikz_to_image w code []).2 = ProbeTool "pdflatex" :: tr.
Proof. pipeline_paths w code; eauto. Qed.

(** X18 — A [render_tikz] request touches the outside world exactly when its
    markup is a non-empty string: otherwise no tool is probed and nothing is
    written. *)
Theorem handler_acts_iff_valid (w : World)
  (arguments : option (gmap string PyVal)) :
  (handle_call_tool w "render_tikz" arguments).2 <> []
  <-> exists code, default ∅ arguments !! "tikz_code" = Some (PyStr code)
                   /\ code <> "".
Proof.
  destruct (markup_cases arguments) as [(code & Hget & Hne) | Hbad].
  - split; [eauto |]. intros _.
    rewrite (handle_valid_markup w arguments code Hget Hne).
    destruct (pipeline_trace_starts w code) as (tr & E).
    destruct (compile_tikz_to_image w code []) as [[data | msg] tr'];
      simpl in *; now rewrite E.
  - rewrite (handle_invalid_markup w arguments Hbad). simpl. split.
    + intros H. now contradiction H.
    + intros (code & Hget & Hne). exfalso. apply Hne. now apply Hbad.
Qed.

(** X19 — The tools the listing advertises are the tools the handler serves: any
    other name is answered "Unknown tool" without any action, and an
    advertised name never is. *)
Theorem advertised_tools_served (w : World) (name : string)
  (arguments : option (gmap string PyVal)) :
  (name ∉ map tool_name handle_list_tools ->
   handle_call_tool w name arguments
   = ([TextContent ("Unknown tool: " +:+ name
                    +:+ ". Available tools: render_tikz")], []))
  /\ (name ∈ map tool_name handle_list_tools ->
      forall rest,
        (handle_call_tool w name arguments).1
        <> [TextContent ("Unknown tool: " +:+ rest)]).
Proof.
  split.
  - intros H. apply handle_other_tool. intros ->. apply H. simpl. in_trace.
  - intros H rest. simpl in H. apply list_elem_of_singleton in H as ->.
    destruct (markup_cases arguments) as [(code & Hget & Hne) | Hbad].
    + rewrite (handle_valid_markup w arguments code Hget Hne).
      destruct (compile_tikz_to_image w code []) as [[data | msg] tr];
        simpl; discriminate.
    + rewrite (handle_invalid_markup w arguments Hbad). simpl. discriminate.
Qed.

(** X20 — Every argument the listing declares as required is enforced by the
    handler: a request for an advertised tool that lacks it is refused with
    the validation text, before anything is done. *)
Theorem required_argument_enforced (w : World) (t : Tool) (key : string)
  (arguments : gmap string PyVal) :
  t ∈ handle_list_tools -> key ∈ required_arguments t ->
  arguments !! key = None ->
  handle_call_tool w (tool_name t) (Some arguments)
  = ([TextContent "Error: Valid TikZ code is required"], []).
Proof.
  intros Ht Hkey Hget. apply list_elem_of_singleton in Ht as ->.
  vm_compute in Hkey. apply list_elem_of_singleton in Hkey as ->.
  apply handle_invalid_markup. simpl. rewrite Hget. discriminate.
Qed.

Lemma required_argument_enforced_witness :
  handle_call_tool world_success (tool_name render_tikz_tool)
    (Some {[ "code" := PyStr "\draw (0,0) -- (1,1);" ]})
  = ([TextContent "Error: Valid TikZ code is required"], []).
Proof.
  apply (required_argument_enforced world_success render_tikz_tool
           "tikz_code" {[ "code" := PyStr "\draw (0,0) -- (1,1);" ]}).
  - apply list_elem_of_here.
  - apply list_elem_of_here.
  - reflexivity.
Defined.

(** X21 — End to end: when the compiler fails, [subprocess.run] reports it
    by [CalledProcessError] (no action raised an exception of its own) and
    the log yields a report, the caller receives one text, the report behind
    the two fixed prefixes. *)
Theorem compile_failure_response (w : World)
  (arguments : option (gmap string PyVal)) (code log_content : string) :
  default ∅ arguments !! "tikz_code" = Some (PyStr code) -> code <> "" ->
  pdflatex_found w = true -> convert_found w = true ->
  unfaulted w (compile_steps (normalize code) ++ [ReadLog; RemoveWorkspace]) ->
  returncode (pdflatex w (normalize code)) <> 0%Z ->
  log_file (pdflatex w (normalize code)) = Some log_content ->
  diagnostic_report log_content <> "" ->
  (handle_call_tool w "render_tikz" arguments).1
  = [TextContent ("Compilation Error: LaTeX compilation failed:"
                  +:+ String nl (String nl (diagnostic_report log_content)))].
Proof.
  intros Hget Hne Hp Hc Hu Hrc Hlog Hrep.
  rewrite (handle_valid_markup w arguments code Hget Hne).
  rewrite (compile_nonzero_exit w code Hp Hc); [| now rewrite Hlog | exact Hrc].
  unfold compile_error_details. rewrite Hlog. simpl.
  now rewrite (error_details_of_log_report _ _ Hrep).
Qed.

Lemma compile_failure_response_witness :
  (handle_call_tool world_exit1_with_log "render_tikz"
     (Some {[ "tikz_code" := PyStr "\foo" ]})).1
  = [TextContent ("Compilation Error: LaTeX compilation failed:"
                  +:+ String nl (String nl (diagnostic_report sample_log)))].
Proof.
  apply (compile_failure_response world_exit1_with_log
           (Some {[ "tikz_code" := PyStr "\foo" ]}) "\foo" sample_log);
    try reflexivity; try discriminate. repeat constructor.
Defined.

(** ** The lines after an error *)









